(** * Student Application Testing System: the handlers of [main.py]

    A shallow embedding of the thirteen request handlers of [src/main.py]
    over the three module-level collections [students], [tests] and
    [test_results], followed by the properties of the store that the
    specification states.

    Modelling decisions.
    - A Python [int] is a [Z]; a [str] is a [string] holding its UTF-8
      encoding, and its length is its number of characters, [len].
    - A [Dict[int, V]] is an association list in insertion order (a Python
      dict iterates in insertion order): a fresh key is appended at the end,
      an existing key keeps its place, [del] removes the entry.
    - The handlers read and write module-level state and leave by
      [raise HTTPException(...)]: they are computations in a state and
      exception monad, [handler A].
    - Every request body is decoded into a fresh object, and responses are
      serialised, so no stored record is aliased from outside the store. The
      in-place [tests_taken.append] on a stored student is therefore the
      replacement of that dict entry, at its place, by the extended record.
      The default [[]] of [tests_taken] is copied by the model class for
      each instance, so two students never share one list.
    - A [float] is a binary64 of the Standard Library's [SpecFloat]. A
      conversion of an exact value to [float] gives the nearest binary64,
      ties to even, and fails beyond the range of the format. *)

From Stdlib Require Import ZArith QArith String Ascii SpecFloat.
From stdpp Require Import base tactics option list sorting.

Local Open Scope string_scope.
Local Open Scope list_scope.
Local Open Scope Z_scope.

(** ** Strings *)

(** A byte of the form [10xxxxxx] continues a character of a UTF-8 string;
    every other byte starts one. *)
Definition is_continuation_byte (c : ascii) : bool :=
  ((128 <=? nat_of_ascii c) && (nat_of_ascii c <? 192))%nat.

(** [len(s)] for a [str]: the number of characters. *)
Fixpoint len (s : string) : nat :=
  match s with
  | EmptyString => 0%nat
  | String c s' => ((if is_continuation_byte c then 0 else 1) + len s')%nat
  end.

(** ** Data model (the pydantic classes) *)

Module Student.
Record t : Type := mk
  { id : Z;
    name : string;
    email : string;
    tests_taken : list Z }.

(** [students[k].tests_taken.append(x)] seen as a new value of the record. *)
Definition append_test (x : Z) (s : t) : t :=
  mk (id s) (name s) (email s) (tests_taken s ++ [x]).

(** Decoding of a request body by the model class: [name] must have 2 to 50
    characters, and [tests_taken] is [[]] when the body leaves it out and
    the given list otherwise. [None] is a rejected body. *)
Definition decode (id : Z) (name email : string)
    (tests_taken : option (list Z)) : option t :=
  if ((2 <=? len name) && (len name <=? 50))%nat
  then Some (mk id name email (default [] tests_taken))
  else None.
End Student.

Module Test.
Record t : Type := mk
  { id : Z;
    name : string;
    max_score : Z }.
End Test.

Module TestResult.
Record t : Type := mk
  { student_id : Z;
    test_id : Z;
    score : Z }.
End TestResult.

Module ResponseMessage.
Record t : Type := mk { message : string }.
End ResponseMessage.

(** ** Python dictionaries keyed by [int], in insertion order *)

Abbreviation dict V := (list (Z * V)).

Section Dict.
Context {V : Type}.
Implicit Type d : dict V.

(** [k in d] *)
Fixpoint dict_contains (k : Z) d : bool :=
  match d with
  | [] => false
  | (k', _) :: d' => if Z.eqb k' k then true else dict_contains k d'
  end.

(** [d[k]]; [None] stands for the [KeyError] of a missing key. *)
Fixpoint dict_getitem (k : Z) d : option V :=
  match d with
  | [] => None
  | (k', v) :: d' => if Z.eqb k' k then Some v else dict_getitem k d'
  end.

(** [d[k] = v]: an existing key keeps its position, a new one goes last. *)
Fixpoint dict_setitem (k : Z) (v : V) d : dict V :=
  match d with
  | [] => [(k, v)]
  | (k', v') :: d' =>
      if Z.eqb k' k then (k', v) :: d' else (k', v') :: dict_setitem k v d'
  end.

(** [del d[k]] for a key that is present (keys are unique in a dict). *)
Definition dict_delitem (k : Z) d : dict V :=
  filter (λ kv, kv.1 ≠ k) d.

(** [list(d.values())] *)
Definition dict_values d : list V := d.*2.

Definition dict_keys d : list Z := d.*1.
End Dict.

(** ** The module-level state *)

Module Store.
Record t : Type := mk
  { students : dict Student.t;
    tests : dict Test.t;
    test_results : list TestResult.t }.

(** The state when the module has just been loaded. *)
Definition empty : t := mk [] [] [].
End Store.

(** ** Exceptions and the handler monad *)

Inductive exn : Type :=
| HTTPException (status_code : Z) (detail : string)
| KeyError
| ValueError
| StatisticsError
| OverflowError
| ResponseValidationError.

Inductive outcome (A : Type) : Type :=
| Ok (a : A)
| Raise (e : exn).

Arguments Ok {A} a.
Arguments Raise {A} e.

Definition handler (A : Type) : Type := Store.t → outcome A * Store.t.

Definition ret {A} (a : A) : handler A := λ st, (Ok a, st).

Definition raise {A} (e : exn) : handler A := λ st, (Raise e, st).

Definition bind {A B} (c : handler A) (k : A → handler B) : handler B :=
  λ st, match c st with
        | (Ok a, st') => k a st'
        | (Raise e, st') => (Raise e, st')
        end.

Notation "'let*' x ':=' c 'in' k" := (bind c (λ x, k))
  (at level 10, x name, c at level 100, k at level 200, only parsing).

(** Reading and assigning the three globals. *)
Definition students : handler (dict Student.t) := λ st, (Ok (Store.students st), st).
Definition tests : handler (dict Test.t) := λ st, (Ok (Store.tests st), st).
Definition test_results : handler (list TestResult.t) :=
  λ st, (Ok (Store.test_results st), st).

Definition set_students (d : dict Student.t) : handler unit :=
  λ st, (Ok tt, Store.mk d (Store.tests st) (Store.test_results st)).
Definition set_tests (d : dict Test.t) : handler unit :=
  λ st, (Ok tt, Store.mk (Store.students st) d (Store.test_results st)).
Definition set_test_results (l : list TestResult.t) : handler unit :=
  λ st, (Ok tt, Store.mk (Store.students st) (Store.tests st) l).

(** Subscription [d[k]] inside a handler: a missing key raises [KeyError]. *)
Definition subscript {V} (d : dict V) (k : Z) : handler V :=
  match dict_getitem k d with
  | Some v => ret v
  | None => raise KeyError
  end.

(** The error kinds of the specification, as the handlers raise them. *)
Definition StudentNotFound : exn := HTTPException 404 "Student not found".
Definition TestNotFound : exn := HTTPException 404 "Test not found".
Definition StudentDuplicateId : exn := HTTPException 400 "Student ID already exists".
Definition TestDuplicateId : exn := HTTPException 400 "Test ID already exists".
Definition ScoreValidationError : exn :=
  HTTPException 400 "Score exceeds maximum possible score".
Definition NoResults : exn := HTTPException 404 "No results found for this test".

(** ** Student endpoints *)

Definition create_student (student : Student.t) : handler Student.t :=
  let* d := students in
  if dict_contains (Student.id student) d
  then raise (HTTPException 400 "Student ID already exists")
  else let* _ := set_students (dict_setitem (Student.id student) student d) in
       ret student.

Definition get_student (student_id : Z) : handler Student.t :=
  let* d := students in
  if negb (dict_contains student_id d)
  then raise (HTTPException 404 "Student not found")
  else subscript d student_id.

Definition get_all_students : handler (list Student.t) :=
  let* d := students in
  ret (dict_values d).

Definition delete_student (student_id : Z) : handler ResponseMessage.t :=
  let* d := students in
  if negb (dict_contains student_id d)
  then raise (HTTPException 404 "Student not found")
  else let* _ := set_students (dict_delitem student_id d) in
       ret (ResponseMessage.mk "Student deleted successfully").

(** ** Test endpoints *)

Definition create_test (test : Test.t) : handler Test.t :=
  let* d := tests in
  if dict_contains (Test.id test) d
  then raise (HTTPException 400 "Test ID already exists")
  else let* _ := set_tests (dict_setitem (Test.id test) test d) in
       ret test.

Definition get_test (test_id : Z) : handler Test.t :=
  let* d := tests in
  if negb (dict_contains test_id d)
  then raise (HTTPException 404 "Test not found")
  else subscript d test_id.

Definition get_all_tests : handler (list Test.t) :=
  let* d := tests in
  ret (dict_values d).

(** ** Result endpoints *)

(** [test_results.append(result)] *)
Definition test_results_append (result : TestResult.t) : handler unit :=
  let* l := test_results in
  set_test_results (l ++ [result]).

(** [students[student_id].tests_taken.append(test_id)]: the subscription
    raises [KeyError] on a missing key; the append mutates the stored record
    where it is. *)
Definition tests_taken_append (student_id test_id : Z) : handler unit :=
  let* d := students in
  let* student := subscript d student_id in
  set_students (dict_setitem student_id (Student.append_test test_id student) d).

Definition submit_test_result (result : TestResult.t) : handler TestResult.t :=
  let* ss := students in
  if negb (dict_contains (TestResult.student_id result) ss)
  then raise (HTTPException 404 "Student not found")
  else
  let* ts := tests in
  if negb (dict_contains (TestResult.test_id result) ts)
  then raise (HTTPException 404 "Test not found")
  else
  let* test := subscript ts (TestResult.test_id result) in
  if TestResult.score result >? Test.max_score test
  then raise (HTTPException 400 "Score exceeds maximum possible score")
  else
  let* _ := test_results_append result in
  let* _ := tests_taken_append (TestResult.student_id result)
                               (TestResult.test_id result) in
  ret result.

Definition get_student_results (student_id : Z) : handler (list TestResult.t) :=
  let* d := students in
  if negb (dict_contains student_id d)
  then raise (HTTPException 404 "Student not found")
  else
  let* l := test_results in
  ret (filter (λ result, TestResult.student_id result = student_id) l).

Definition get_test_results (test_id : Z) : handler (list TestResult.t) :=
  let* d := tests in
  if negb (dict_contains test_id d)
  then raise (HTTPException 404 "Test not found")
  else
  let* l := test_results in
  ret (filter (λ result, TestResult.test_id result = test_id) l).

(** ** Aggregates *)

(** A binary64 floating-point number. *)
Abbreviation binary64 := spec_float.

(** A number as a handler returns it: a Python [int] or a [float]. *)
Inductive number : Type :=
| PyInt (k : Z)
| PyFloat (x : binary64).

(** The binary64 nearest to the exact quotient [a / b], ties to even, when
    it is within the range of the format. This is what both [float(k)] (with
    [b = 1]) and the true division [a / b] of two [int]s compute; both fail
    when the rounded value is beyond the largest binary64. *)
Definition nearest_binary64 (a : Z) (b : positive) : option binary64 :=
  let quotient :=
    match a with
    | Z0 => S754_zero false
    | Zpos p => SFdiv 53 1024 (S754_finite false p 0) (S754_finite false b 0)
    | Zneg p => SFdiv 53 1024 (S754_finite true p 0) (S754_finite false b 0)
    end in
  match quotient with
  | S754_infinity _ | S754_nan => None
  | _ => Some quotient
  end.

(** [sum] over integers (exact). *)
Definition py_sum (data : list Z) : Z := foldl Z.add 0 data.

(** [statistics.mean]: the data are summed exactly and divided by their
    count as a fraction in lowest terms; for [int] data the library returns
    an [int] when that quotient is integral and otherwise its conversion to
    [float], numerator divided by denominator, which raises [OverflowError]
    beyond the range of a float. Empty data raise [StatisticsError]. *)
Definition statistics_mean (data : list Z) : handler number :=
  match data with
  | [] => raise StatisticsError
  | _ :: _ =>
      let value := Qred (py_sum data # Pos.of_nat (length data)) in
      if Pos.eqb (Qden value) 1 then ret (PyInt (Qnum value))
      else match nearest_binary64 (Qnum value) (Qden value) with
           | Some x => ret (PyFloat x)
           | None => raise OverflowError
           end
  end.

(** [max] and [min] of a list: the first item is the best so far and a later
    item replaces it when strictly larger (smaller). An empty argument
    raises [ValueError]. *)
Definition py_max (data : list Z) : handler Z :=
  match data with
  | [] => raise ValueError
  | x :: rest => ret (foldl (λ best item, if item >? best then item else best) x rest)
  end.

Definition py_min (data : list Z) : handler Z :=
  match data with
  | [] => raise ValueError
  | x :: rest => ret (foldl (λ best item, if item <? best then item else best) x rest)
  end.

(** [response_model=float]: the returned value is validated as a float. An
    [int] is converted to the nearest float; when it is beyond the range of
    a float the conversion fails and the framework reports that the
    response is not valid (with the first generation of the validation
    library the conversion's own [OverflowError] escapes instead; either
    way the answer is a server error). *)
Definition response_model_float (v : number) : outcome number :=
  match v with
  | PyInt k =>
      match nearest_binary64 k 1 with
      | Some x => Ok (PyFloat x)
      | None => Raise ResponseValidationError
      end
  | PyFloat x => Ok (PyFloat x)
  end.

(** A computation that only produces an outcome. *)
Definition lift_outcome {A} (o : outcome A) : handler A := λ st, (o, st).

(** [[result.score for result in test_results if result.test_id == test_id]] *)
Definition scores_of_test (test_id : Z) (l : list TestResult.t) : list Z :=
  TestResult.score <$> filter (λ result, TestResult.test_id result = test_id) l.

(** The body of [get_test_average], before the response model applies. *)
Definition get_test_average_body (test_id : Z) : handler number :=
  let* d := tests in
  if negb (dict_contains test_id d)
  then raise (HTTPException 404 "Test not found")
  else
  let* l := test_results in
  let test_scores := scores_of_test test_id l in
  if bool_decide (test_scores = [])
  then raise (HTTPException 404 "No results found for this test")
  else statistics_mean test_scores.

Definition get_test_average (test_id : Z) : handler number :=
  let* v := get_test_average_body test_id in
  lift_outcome (response_model_float v).

Definition get_test_highest (test_id : Z) : handler Z :=
  let* d := tests in
  if negb (dict_contains test_id d)
  then raise (HTTPException 404 "Test not found")
  else
  let* l := test_results in
  let test_scores := scores_of_test test_id l in
  if bool_decide (test_scores = [])
  then raise (HTTPException 404 "No results found for this test")
  else py_max test_scores.

Definition get_test_lowest (test_id : Z) : handler Z :=
  let* d := tests in
  if negb (dict_contains test_id d)
  then raise (HTTPException 404 "Test not found")
  else
  let* l := test_results in
  let test_scores := scores_of_test test_id l in
  if bool_decide (test_scores = [])
  then raise (HTTPException 404 "No results found for this test")
  else py_min test_scores.

(** ** The service as a transition system *)

Inductive request : Type :=
| CreateStudent (student : Student.t)
| GetStudent (student_id : Z)
| GetAllStudents
| DeleteStudent (student_id : Z)
| CreateTest (test : Test.t)
| GetTest (test_id : Z)
| GetAllTests
| SubmitTestResult (result : TestResult.t)
| GetStudentResults (student_id : Z)
| GetTestResults (test_id : Z)
| GetTestAverage (test_id : Z)
| GetTestHighest (test_id : Z)
| GetTestLowest (test_id : Z).

Inductive response : Type :=
| RStudent (s : Student.t)
| RStudents (l : list Student.t)
| RMessage (m : ResponseMessage.t)
| RTest (t : Test.t)
| RTests (l : list Test.t)
| RResult (r : TestResult.t)
| RResults (l : list TestResult.t)
| RNumber (v : number).

Definition fmap_handler {A B} (f : A → B) (c : handler A) : handler B :=
  let* a := c in ret (f a).

(** The routing table of [app]. *)
Definition serve (q : request) : handler response :=
  match q with
  | CreateStudent student => fmap_handler RStudent (create_student student)
  | GetStudent student_id => fmap_handler RStudent (get_student student_id)
  | GetAllStudents => fmap_handler RStudents get_all_students
  | DeleteStudent student_id => fmap_handler RMessage (delete_student student_id)
  | CreateTest test => fmap_handler RTest (create_test test)
  | GetTest test_id => fmap_handler RTest (get_test test_id)
  | GetAllTests => fmap_handler RTests get_all_tests
  | SubmitTestResult result => fmap_handler RResult (submit_test_result result)
  | GetStudentResults student_id =>
      fmap_handler RResults (get_student_results student_id)
  | GetTestResults test_id => fmap_handler RResults (get_test_results test_id)
  | GetTestAverage test_id => fmap_handler RNumber (get_test_average test_id)
  | GetTestHighest test_id =>
      fmap_handler (λ k, RNumber (PyInt k)) (get_test_highest test_id)
  | GetTestLowest test_id =>
      fmap_handler (λ k, RNumber (PyInt k)) (get_test_lowest test_id)
  end.

(** The store after a request, whatever the response. *)
Definition step (q : request) (st : Store.t) : Store.t := (serve q st).2.

(** A store the running service can be in: reached from the freshly loaded
    module by a sequence of requests. *)
Inductive reachable : Store.t → Prop :=
| reachable_empty : reachable Store.empty
| reachable_step q st : reachable st → reachable (step q st).

(** * Vocabulary of the properties *)

(** ** Stores used as examples *)

(** A small store for examples: student 1 and test 1 with [max_score] 20,
    no result recorded yet. *)
Definition ann : Student.t := Student.mk 1 "Ann Lee" "a@x.com" [].
Definition quiz : Test.t := Test.mk 1 "Quiz" 20.
Definition class_store : Store.t := Store.mk [(1, ann)] [(1, quiz)] [].

(** Two students, and a result recorded for each. *)
Definition two_students : Store.t :=
  Store.mk [(1, ann); (2, Student.mk 2 "Bo Chen" "b@x.com" [1])]
           [(1, quiz)]
           [TestResult.mk 1 1 18; TestResult.mk 2 1 7; TestResult.mk 1 1 20].

(** Test 1 with the scores 15, 5 and 10 recorded in that order. *)
Definition graded_store : Store.t :=
  Store.mk [(1, ann)] [(1, quiz); (2, Test.mk 2 "Exam" 100)]
           [TestResult.mk 1 1 15; TestResult.mk 1 1 5; TestResult.mk 1 1 10].

(** Ann and Bo enrol, a quiz is created, Ann takes it, leaves and enrols
    again, and a second test is created. *)
Definition bo : Student.t := Student.mk 2 "Bo Chen" "b@x.com" [].
Definition term_requests : list request :=
  [CreateStudent ann; CreateStudent bo; CreateTest quiz;
   SubmitTestResult (TestResult.mk 1 1 18); DeleteStudent 1;
   CreateStudent ann; CreateTest (Test.mk 2 "Exam" 100);
   SubmitTestResult (TestResult.mk 2 2 60)].

(** Bo was created with two taken tests of his own and has no result. *)
Definition transfer_store : Store.t :=
  Store.mk [(1, ann); (2, Student.mk 2 "Bo Chen" "b@x.com" [5; 5])]
           [(1, quiz)] [].

(** ** Dicts of records *)

(** Every entry of a dict of records sits under the record's own id. *)
Definition keyed_by {V} (key : V → Z) (d : dict V) : Prop :=
  Forall (λ kv, kv.1 = key kv.2) d.

(** What makes the two association lists dicts of records: keys are unique
    and every record sits under its own id. *)
Record store_wf (st : Store.t) : Prop := mk_store_wf
  { wf_student_keys : NoDup (dict_keys (Store.students st));
    wf_student_ids : keyed_by Student.id (Store.students st);
    wf_test_keys : NoDup (dict_keys (Store.tests st));
    wf_test_ids : keyed_by Test.id (Store.tests st) }.

(** ** Aggregates *)

(** The loop of [max] and [min]: keep the best item seen so far. *)
Definition keep_best (better : Z → Z → bool) (best item : Z) : Z :=
  if better item best then item else best.

(** The two guards the three aggregate handlers share, then the aggregate
    [k] on the scores recorded for the test. *)
Definition guarded_scores {A} (st : Store.t) (test_id : Z)
    (k : list Z → handler A) : outcome A * Store.t :=
  if dict_contains test_id (Store.tests st)
  then if bool_decide (scores_of_test test_id (Store.test_results st) = [])
       then (Raise NoResults, st)
       else k (scores_of_test test_id (Store.test_results st)) st
  else (Raise TestNotFound, st).

(** [response_model=float] on the outcome of a handler. *)
Definition float_outcome (o : outcome number) : outcome number :=
  match o with Ok v => response_model_float v | Raise e => Raise e end.

(** ** Effects of requests *)

(** The four ways a request can change the store. *)
Inductive effect (st : Store.t) : request → Store.t → Prop :=
| effect_create_student student :
    dict_contains (Student.id student) (Store.students st) = false →
    effect st (CreateStudent student)
      (Store.mk (dict_setitem (Student.id student) student (Store.students st))
                (Store.tests st) (Store.test_results st))
| effect_delete_student student_id :
    dict_contains student_id (Store.students st) = true →
    effect st (DeleteStudent student_id)
      (Store.mk (dict_delitem student_id (Store.students st))
                (Store.tests st) (Store.test_results st))
| effect_create_test test :
    dict_contains (Test.id test) (Store.tests st) = false →
    effect st (CreateTest test)
      (Store.mk (Store.students st)
                (dict_setitem (Test.id test) test (Store.tests st))
                (Store.test_results st))
| effect_submit result student test :
    dict_getitem (TestResult.student_id result) (Store.students st) = Some student →
    dict_getitem (TestResult.test_id result) (Store.tests st) = Some test →
    TestResult.score result ≤ Test.max_score test →
    effect st (SubmitTestResult result)
      (Store.mk
         (dict_setitem (TestResult.student_id result)
            (Student.append_test (TestResult.test_id result) student)
            (Store.students st))
         (Store.tests st)
         (Store.test_results st ++ [result])).

Definition succeeds (q : request) (st : Store.t) : Prop :=
  ∃ a, (serve q st).1 = Ok a.

(** The store after a sequence of requests. *)
Definition run (qs : list request) (st : Store.t) : Store.t :=
  foldl (λ st q, step q st) st qs.

(** The test that [r] refers to is in the store and [r]'s score is at most
    its [max_score]. *)
Definition score_within_max (st : Store.t) (r : TestResult.t) : Prop :=
  ∃ test, dict_getitem (TestResult.test_id r) (Store.tests st) = Some test
          ∧ TestResult.score r ≤ Test.max_score test.

(** ** The creation log *)

(** A log kept beside the store while a sequence of requests is served:
    each successful creation enters its record at the end, stamped with the
    position of the request in the sequence; a successful deletion strikes
    the student's entry. *)
Record history : Type := mk_history
  { store : Store.t;
    clock : nat;
    student_log : list (nat * Student.t);
    test_log : list (nat * Test.t) }.

Definition history_start : history := mk_history Store.empty 0 [] [].

Definition is_ok {A} (o : outcome A) : bool :=
  match o with Ok _ => true | Raise _ => false end.

Definition record_request (h : history) (q : request) : history :=
  let ok := is_ok (serve q (store h)).1 in
  mk_history
    (step q (store h))
    (S (clock h))
    match q with
    | CreateStudent student =>
        if ok then student_log h ++ [(clock h, student)] else student_log h
    | DeleteStudent student_id =>
        if ok then filter (λ e, Student.id e.2 ≠ student_id) (student_log h)
        else student_log h
    | _ => student_log h
    end
    match q with
    | CreateTest test =>
        if ok then test_log h ++ [(clock h, test)] else test_log h
    | _ => test_log h
    end.

Definition replay (qs : list request) : history :=
  foldl record_request history_start qs.

(** The store in which the request at position [t] of [qs] is served. *)
Definition store_before (qs : list request) (t : nat) : Store.t :=
  run (take t qs) Store.empty.

(** Request [t] of [qs] created student [s], and no later request of [qs]
    deleted that student. *)
Definition survives (qs : list request) (t : nat) (s : Student.t) : Prop :=
  qs !! t = Some (CreateStudent s) ∧
  succeeds (CreateStudent s) (store_before qs t) ∧
  ∀ t', (t < t')%nat →
        qs !! t' = Some (DeleteStudent (Student.id s)) →
        ¬ succeeds (DeleteStudent (Student.id s)) (store_before qs t').

(** Request [t] of [qs] created test [x]. *)
Definition test_created (qs : list request) (t : nat) (x : Test.t) : Prop :=
  qs !! t = Some (CreateTest x) ∧ succeeds (CreateTest x) (store_before qs t).

(** A listed student against the record that created it: the same [id],
    [name] and [email], and a [tests_taken] that extends the created one. *)
Definition created_as (s created : Student.t) : Prop :=
  Student.id s = Student.id created ∧
  Student.name s = Student.name created ∧
  Student.email s = Student.email created ∧
  Student.tests_taken created `prefix_of` Student.tests_taken s.

(** Entries of a log are in the order of their stamps. *)
Definition stamped_before {A} (e1 e2 : nat * A) : Prop := (e1.1 < e2.1)%nat.

Definition entry_matches (kv : Z * Student.t) (e : nat * Student.t) : Prop :=
  kv.1 = Student.id e.2 ∧ created_as kv.2 e.2.

Record history_inv (qs : list request) (h : history) : Prop := mk_history_inv
  { inv_store : store h = run qs Store.empty;
    inv_clock : clock h = length qs;
    inv_students :
      Forall2 entry_matches (Store.students (store h)) (student_log h);
    inv_tests : Store.tests (store h) = (λ e, (Test.id e.2, e.2)) <$> test_log h;
    inv_student_order : StronglySorted stamped_before (student_log h);
    inv_test_order : StronglySorted stamped_before (test_log h);
    inv_student_origin :
      ∀ t s, (t, s) ∈ student_log h → qs !! t = Some (CreateStudent s);
    inv_test_origin :
      ∀ t x, (t, x) ∈ test_log h → qs !! t = Some (CreateTest x) }.

(** ** Floats *)

(** The exact value of a finite binary64. *)
Definition binary64_value (x : binary64) : Q :=
  match x with
  | S754_finite negative m e =>
      ((if negative then -1 else 1) * inject_Z (Z.pos m) * Qpower 2 e)%Q
  | _ => 0%Q
  end.

(** The binary64 nearest to a rational, if within range: the rounding of
    its fraction in lowest terms. *)
Definition binary64_nearest (q : Q) : option binary64 :=
  nearest_binary64 (Qnum (Qred q)) (Qden (Qred q)).

(** The two failures of a float conversion; a request that meets one is
    answered with a server error, not with an error of its route. *)
Definition server_error (e : exn) : Prop :=
  e = OverflowError ∨ e = ResponseValidationError.

(** A test whose [max_score] is beyond the largest float, taken twice. *)
Definition huge_requests : list request :=
  [CreateStudent ann; CreateTest (Test.mk 1 "Quiz" (2 ^ 1100));
   SubmitTestResult (TestResult.mk 1 1 (2 ^ 1100));
   SubmitTestResult (TestResult.mk 1 1 1)].

(** ** Errors and queries *)

(** The errors each endpoint can answer with, read off its [raise]
    statements. *)
Definition possible_errors (q : request) : list exn :=
  match q with
  | CreateStudent _ => [StudentDuplicateId]
  | GetStudent _ | DeleteStudent _ | GetStudentResults _ => [StudentNotFound]
  | CreateTest _ => [TestDuplicateId]
  | GetTest _ | GetTestResults _ => [TestNotFound]
  | GetAllStudents | GetAllTests => []
  | SubmitTestResult _ => [StudentNotFound; TestNotFound; ScoreValidationError]
  | GetTestAverage _ | GetTestHighest _ | GetTestLowest _ => [TestNotFound; NoResults]
  end.

(** The [GET] routes. *)
Definition is_query (q : request) : bool :=
  match q with
  | CreateStudent _ | DeleteStudent _ | CreateTest _ | SubmitTestResult _ => false
  | _ => true
  end.

(** * Properties *)

(** ** Dictionaries *)

Section DictFacts.
Context {V : Type}.
Implicit Types (d : dict V) (k : Z) (v : V).

Lemma dict_contains_keys k d : dict_contains k d = true ↔ k ∈ dict_keys d.
Proof.
  induction d as [|[k' v'] d IH]; cbn.
  - split; [done | by intros ?%elem_of_nil].
  - destruct (Z.eqb_spec k' k) as [->|Hne].
    + split; [intros _; apply list_elem_of_here | done].
    + rewrite IH. split; [apply list_elem_of_further |].
      intros [?|?]%elem_of_cons; [congruence | done].
Qed.

Lemma dict_contains_false k d : dict_contains k d = false ↔ k ∉ dict_keys d.
Proof.
  rewrite <- dict_contains_keys. destruct (dict_contains k d); naive_solver.
Qed.

Lemma dict_contains_getitem k d :
  dict_contains k d = true ↔ is_Some (dict_getitem k d).
Proof.
  induction d as [|[k' v'] d IH]; cbn.
  - split; [done | by intros []].
  - destruct (Z.eqb k' k); [split; eauto | done].
Qed.

Lemma dict_getitem_None k d :
  dict_contains k d = false ↔ dict_getitem k d = None.
Proof.
  induction d as [|[k' v'] d IH]; cbn; [done |].
  destruct (Z.eqb k' k); [split; done | done].
Qed.

Lemma dict_getitem_elem k v d : dict_getitem k d = Some v → (k, v) ∈ d.
Proof.
  induction d as [|[k' v'] d IH]; cbn; [done |].
  destruct (Z.eqb_spec k' k) as [->|Hne].
  - intros [= ->]. apply list_elem_of_here.
  - intros ?. apply list_elem_of_further. auto.
Qed.

Lemma dict_setitem_fresh k v d :
  dict_contains k d = false → dict_setitem k v d = d ++ [(k, v)].
Proof.
  induction d as [|[k' v'] d IH]; cbn; [done |].
  destruct (Z.eqb k' k); [done |]. intros ?. f_equal. auto.
Qed.

Lemma dict_getitem_setitem k v d : dict_getitem k (dict_setitem k v d) = Some v.
Proof.
  induction d as [|[k' v'] d IH]; cbn.
  - by rewrite Z.eqb_refl.
  - destruct (Z.eqb k' k) eqn:E; cbn; by rewrite E.
Qed.

Lemma dict_getitem_setitem_ne k k' v d :
  k ≠ k' → dict_getitem k' (dict_setitem k v d) = dict_getitem k' d.
Proof.
  intros Hne. induction d as [|[k0 v0] d IH]; cbn.
  - by destruct (Z.eqb_spec k k').
  - destruct (Z.eqb_spec k0 k) as [->|?]; cbn.
    + by destruct (Z.eqb_spec k k').
    + by rewrite IH.
Qed.

Lemma dict_contains_setitem k k' v d :
  dict_contains k' (dict_setitem k v d) = (Z.eqb k k' || dict_contains k' d)%bool.
Proof.
  induction d as [|[k0 v0] d IH]; cbn.
  - by destruct (Z.eqb k k').
  - destruct (Z.eqb_spec k0 k) as [->|?]; cbn.
    + by destruct (Z.eqb k k').
    + rewrite IH. destruct (Z.eqb k0 k'), (Z.eqb k k'); done.
Qed.

(** Assigning to a key that is present changes no key and no position. *)
Lemma dict_keys_setitem_present k v d :
  dict_contains k d = true → dict_keys (dict_setitem k v d) = dict_keys d.
Proof.
  unfold dict_keys. induction d as [|[k0 v0] d IH]; cbn; [done |].
  destruct (Z.eqb k0 k); cbn; [done |]. intros ?. f_equal. auto.
Qed.

Lemma dict_keys_delitem k d :
  dict_keys (dict_delitem k d) = filter (λ k', k' ≠ k) (dict_keys d).
Proof.
  unfold dict_keys, dict_delitem. induction d as [|[k0 v0] d IH]; [done |].
  rewrite fmap_cons, !filter_cons. cbn [fst].
  case_decide; [rewrite fmap_cons; cbn [fst] |]; by rewrite IH.
Qed.

Lemma dict_contains_delitem k d : dict_contains k (dict_delitem k d) = false.
Proof.
  apply dict_contains_false. rewrite dict_keys_delitem.
  intros [? _]%list_elem_of_filter. done.
Qed.

Lemma dict_getitem_delitem_ne k k' d :
  k ≠ k' → dict_getitem k' (dict_delitem k d) = dict_getitem k' d.
Proof.
  intros Hne. unfold dict_delitem.
  induction d as [|[k0 v0] d IH]; [done |].
  rewrite filter_cons. cbn [fst]. case_decide as Heq; cbn [dict_getitem].
  - by rewrite IH.
  - subst k0. by destruct (Z.eqb_spec k k').
Qed.
End DictFacts.

(** ** What each handler computes *)

Lemma dict_contains_eq {V} k (d : dict V) :
  dict_contains k d = bool_decide (is_Some (dict_getitem k d)).
Proof.
  destruct (dict_contains k d) eqn:E; symmetry.
  - by apply bool_decide_eq_true, dict_contains_getitem.
  - apply bool_decide_eq_false. apply dict_getitem_None in E. rewrite E.
    by intros [].
Qed.

Ltac unfold_monad :=
  unfold fmap_handler, test_results_append, tests_taken_append, subscript,
    bind, ret, raise, students, tests, test_results,
    set_students, set_tests, set_test_results in *.

(** Case analysis on whether key [k] is in dict [d], with the subscription
    settled in both cases. *)
Ltac case_key k d :=
  let E := fresh "E" in
  let v := fresh "v" in
  let C := fresh "C" in
  destruct (dict_getitem k d) as [v|] eqn:E;
  [ assert (C : dict_contains k d = true) by (apply dict_contains_getitem; eauto)
  | assert (C : dict_contains k d = false) by (by apply dict_getitem_None) ];
  rewrite ?C; cbn.

Lemma create_student_eq student st :
  create_student student st =
    if dict_contains (Student.id student) (Store.students st)
    then (Raise StudentDuplicateId, st)
    else (Ok student,
          Store.mk (dict_setitem (Student.id student) student (Store.students st))
                   (Store.tests st) (Store.test_results st)).
Proof. unfold create_student. unfold_monad. by destruct (dict_contains _ _). Qed.

Lemma create_test_eq test st :
  create_test test st =
    if dict_contains (Test.id test) (Store.tests st)
    then (Raise TestDuplicateId, st)
    else (Ok test,
          Store.mk (Store.students st)
                   (dict_setitem (Test.id test) test (Store.tests st))
                   (Store.test_results st)).
Proof. unfold create_test. unfold_monad. by destruct (dict_contains _ _). Qed.

Lemma get_student_eq student_id st :
  get_student student_id st =
    match dict_getitem student_id (Store.students st) with
    | Some student => (Ok student, st)
    | None => (Raise StudentNotFound, st)
    end.
Proof.
  unfold get_student. unfold_monad.
  case_key student_id (Store.students st); by rewrite ?E.
Qed.

Lemma get_test_eq test_id st :
  get_test test_id st =
    match dict_getitem test_id (Store.tests st) with
    | Some test => (Ok test, st)
    | None => (Raise TestNotFound, st)
    end.
Proof.
  unfold get_test. unfold_monad.
  case_key test_id (Store.tests st); by rewrite ?E.
Qed.

Lemma delete_student_eq student_id st :
  delete_student student_id st =
    if dict_contains student_id (Store.students st)
    then (Ok (ResponseMessage.mk "Student deleted successfully"),
          Store.mk (dict_delitem student_id (Store.students st))
                   (Store.tests st) (Store.test_results st))
    else (Raise StudentNotFound, st).
Proof. unfold delete_student. unfold_monad. by destruct (dict_contains _ _). Qed.

Lemma submit_test_result_eq result st :
  submit_test_result result st =
    match dict_getitem (TestResult.student_id result) (Store.students st) with
    | None => (Raise StudentNotFound, st)
    | Some student =>
        match dict_getitem (TestResult.test_id result) (Store.tests st) with
        | None => (Raise TestNotFound, st)
        | Some test =>
            if TestResult.score result >? Test.max_score test
            then (Raise ScoreValidationError, st)
            else (Ok result,
                  Store.mk
                    (dict_setitem (TestResult.student_id result)
                       (Student.append_test (TestResult.test_id result) student)
                       (Store.students st))
                    (Store.tests st)
                    (Store.test_results st ++ [result]))
        end
    end.
Proof.
  unfold submit_test_result. unfold_monad.
  case_key (TestResult.student_id result) (Store.students st); [|done].
  case_key (TestResult.test_id result) (Store.tests st); [|done].
  destruct (_ >? _); [done |]. cbn. by rewrite E.
Qed.

Lemma get_student_results_eq student_id st :
  get_student_results student_id st =
    if dict_contains student_id (Store.students st)
    then (Ok (filter (λ r, TestResult.student_id r = student_id)
                (Store.test_results st)), st)
    else (Raise StudentNotFound, st).
Proof. unfold get_student_results. unfold_monad. by destruct (dict_contains _ _). Qed.

Lemma get_test_results_eq test_id st :
  get_test_results test_id st =
    if dict_contains test_id (Store.tests st)
    then (Ok (filter (λ r, TestResult.test_id r = test_id)
                (Store.test_results st)), st)
    else (Raise TestNotFound, st).
Proof. unfold get_test_results. unfold_monad. by destruct (dict_contains _ _). Qed.

(** ** Result submission *)

(** C1. Result submission checks, in this order: the student id (404,
    "Student not found"), the test id (404, "Test not found"), the score
    against the test's [max_score] (400). The first check that fails decides
    the response whatever the later ones would say; when the three pass the
    submission succeeds; nothing else can be raised, in particular not the
    [KeyError] that subscripting [tests] with an unknown id would give. *)
Theorem submit_test_result_checks (st : Store.t) (result : TestResult.t) :
  let sid := TestResult.student_id result in
  let tid := TestResult.test_id result in
  (dict_contains sid (Store.students st) = false →
     submit_test_result result st = (Raise StudentNotFound, st)) ∧
  (dict_contains sid (Store.students st) = true →
   dict_contains tid (Store.tests st) = false →
     submit_test_result result st = (Raise TestNotFound, st)) ∧
  (dict_contains sid (Store.students st) = true →
   ∀ test, dict_getitem tid (Store.tests st) = Some test →
     TestResult.score result > Test.max_score test →
     submit_test_result result st = (Raise ScoreValidationError, st)) ∧
  (dict_contains sid (Store.students st) = true →
   ∀ test, dict_getitem tid (Store.tests st) = Some test →
     TestResult.score result ≤ Test.max_score test →
     (submit_test_result result st).1 = Ok result) ∧
  (∀ e, (submit_test_result result st).1 = Raise e →
     e = StudentNotFound ∨ e = TestNotFound ∨ e = ScoreValidationError).
Proof.
  intros sid tid. rewrite submit_test_result_eq. fold sid tid.
  repeat split.
  - intros ->%dict_getitem_None. done.
  - intros [s ->]%dict_contains_getitem ->%dict_getitem_None. done.
  - intros [s ->]%dict_contains_getitem test -> Hgt.
    by rewrite (proj2 (Z.gtb_gt _ _)).
  - intros [s ->]%dict_contains_getitem test -> Hle.
    destruct (Z.gtb_spec (TestResult.score result) (Test.max_score test)); [lia | done].
  - intros e. destruct (dict_getitem sid _); [|intros [= <-]; auto].
    destruct (dict_getitem tid _); [|intros [= <-]; auto].
    destruct (_ >? _); [intros [= <-]; auto | done].
Qed.

Lemma submit_test_result_checks_witness :
  submit_test_result (TestResult.mk 2 9 99) class_store
    = (Raise StudentNotFound, class_store) ∧
  submit_test_result (TestResult.mk 1 9 99) class_store
    = (Raise TestNotFound, class_store) ∧
  submit_test_result (TestResult.mk 1 1 25) class_store
    = (Raise ScoreValidationError, class_store) ∧
  (submit_test_result (TestResult.mk 1 1 18) class_store).1
    = Ok (TestResult.mk 1 1 18).
Proof.
  pose proof (submit_test_result_checks class_store (TestResult.mk 2 9 99))
    as (H1 & _).
  pose proof (submit_test_result_checks class_store (TestResult.mk 1 9 99))
    as (_ & H2 & _).
  pose proof (submit_test_result_checks class_store (TestResult.mk 1 1 25))
    as (_ & _ & H3 & _).
  pose proof (submit_test_result_checks class_store (TestResult.mk 1 1 18))
    as (_ & _ & _ & H4 & _).
  split; [exact (H1 eq_refl) |].
  split; [exact (H2 eq_refl eq_refl) |].
  split; [exact (H3 eq_refl quiz eq_refl eq_refl) |].
  apply (H4 eq_refl quiz eq_refl). cbn. lia.
Defined.

(** C2. A submission whose student and test exist and whose score is at most
    the test's [max_score] succeeds and returns the result; it appends the
    result to [test_results] and the test id to the [tests_taken] of the
    referenced student, whose other fields, like every other student and
    every test, stay as they were. Afterwards the result is the last item of
    both result listings, and reading the student back, alone or in the
    listing of all students, shows the extended sequence. *)
Theorem submit_test_result_valid
    (st : Store.t) (result : TestResult.t) (student : Student.t) (test : Test.t) :
  let sid := TestResult.student_id result in
  let tid := TestResult.test_id result in
  dict_getitem sid (Store.students st) = Some student →
  dict_getitem tid (Store.tests st) = Some test →
  TestResult.score result ≤ Test.max_score test →
  ∃ st' student',
    submit_test_result result st = (Ok result, st') ∧
    Store.test_results st' = Store.test_results st ++ [result] ∧
    Student.tests_taken student' = Student.tests_taken student ++ [tid] ∧
    Student.id student' = Student.id student ∧
    Student.name student' = Student.name student ∧
    Student.email student' = Student.email student ∧
    dict_getitem sid (Store.students st') = Some student' ∧
    (∀ k, k ≠ sid →
       dict_getitem k (Store.students st') = dict_getitem k (Store.students st)) ∧
    dict_keys (Store.students st') = dict_keys (Store.students st) ∧
    Store.tests st' = Store.tests st ∧
    get_student_results sid st' =
      (Ok (filter (λ r, TestResult.student_id r = sid) (Store.test_results st)
           ++ [result]), st') ∧
    get_test_results tid st' =
      (Ok (filter (λ r, TestResult.test_id r = tid) (Store.test_results st)
           ++ [result]), st') ∧
    get_student sid st' = (Ok student', st') ∧
    (∃ l, get_all_students st' = (Ok l, st') ∧ student' ∈ l).
Proof.
  intros sid tid Hs Ht Hle.
  assert (Hsin : dict_contains sid (Store.students st) = true)
    by (apply dict_contains_getitem; eauto).
  assert (Htin : dict_contains tid (Store.tests st) = true)
    by (apply dict_contains_getitem; eauto).
  eexists _, (Student.append_test tid student).
  split.
  { rewrite submit_test_result_eq. fold sid tid. rewrite Hs, Ht.
    destruct (Z.gtb_spec (TestResult.score result) (Test.max_score test));
      [lia | reflexivity]. }
  cbn [Store.test_results Store.students Store.tests].
  assert (Hget : dict_getitem sid
            (dict_setitem sid (Student.append_test tid student) (Store.students st))
          = Some (Student.append_test tid student))
    by apply dict_getitem_setitem.
  repeat match goal with |- _ ∧ _ => split end; try done.
  - intros k Hk. by apply dict_getitem_setitem_ne.
  - by apply dict_keys_setitem_present.
  - rewrite get_student_results_eq. cbn [Store.test_results Store.students].
    rewrite dict_contains_setitem, Z.eqb_refl. cbn.
    by rewrite filter_app, filter_cons_True, filter_nil.
  - rewrite get_test_results_eq. cbn [Store.test_results Store.tests].
    rewrite Htin. by rewrite filter_app, filter_cons_True, filter_nil.
  - rewrite get_student_eq. cbn [Store.students]. by rewrite Hget.
  - eexists. split; [reflexivity |].
    apply dict_getitem_elem in Hget.
    unfold dict_values. apply list_elem_of_fmap. by exists (sid, Student.append_test tid student).
Qed.

Lemma submit_test_result_valid_witness :
  ∃ st' student',
    submit_test_result (TestResult.mk 1 1 18) class_store
      = (Ok (TestResult.mk 1 1 18), st') ∧
    Store.test_results st' = [TestResult.mk 1 1 18] ∧
    Student.tests_taken student' = [1] ∧
    get_student_results 1 st' = (Ok [TestResult.mk 1 1 18], st') ∧
    get_student 1 st' = (Ok student', st').
Proof.
  destruct (submit_test_result_valid class_store (TestResult.mk 1 1 18) ann quiz)
    as (st' & student' & H1 & H2 & H3 & _ & _ & _ & _ & _ & _ & _ & H4 & _ & H5 & _).
  - reflexivity.
  - reflexivity.
  - cbn. lia.
  - exists st', student'. auto.
Defined.

(** C3. A submission that fails leaves the store as it was, and it does fail
    when the student is unknown, when the test is unknown, and when the
    score exceeds the test's [max_score]. *)
Theorem submit_test_result_failure_no_effect (st : Store.t) (result : TestResult.t) :
  let sid := TestResult.student_id result in
  let tid := TestResult.test_id result in
  (∀ e st', submit_test_result result st = (Raise e, st') → st' = st) ∧
  (dict_contains sid (Store.students st) = false
   ∨ dict_contains tid (Store.tests st) = false
   ∨ (∃ test, dict_getitem tid (Store.tests st) = Some test
              ∧ TestResult.score result > Test.max_score test) →
   ∃ e, submit_test_result result st = (Raise e, st)).
Proof.
  intros sid tid. rewrite submit_test_result_eq. fold sid tid. split.
  - intros e st'. destruct (dict_getitem sid _); [|by intros [= _ <-]].
    destruct (dict_getitem tid _); [|by intros [= _ <-]].
    destruct (_ >? _); [by intros [= _ <-] | done].
  - intros H. destruct (dict_getitem sid _) eqn:Es; [|eauto].
    destruct (dict_getitem tid _) as [test|] eqn:Et; [|eauto].
    destruct H as [H|[H|(test' & H & Hgt)]].
    + apply dict_getitem_None in H. congruence.
    + apply dict_getitem_None in H. congruence.
    + injection H as <-. rewrite (proj2 (Z.gtb_gt _ _)); eauto.
Qed.

Lemma submit_test_result_failure_no_effect_witness :
  (submit_test_result (TestResult.mk 1 1 25) class_store).2 = class_store ∧
  ∃ e, submit_test_result (TestResult.mk 7 1 5) class_store = (Raise e, class_store).
Proof.
  split.
  - destruct (submit_test_result_failure_no_effect class_store (TestResult.mk 1 1 25))
      as [H _].
    exact (H ScoreValidationError _ eq_refl).
  - destruct (submit_test_result_failure_no_effect class_store (TestResult.mk 7 1 5))
      as [_ H].
    apply H. left. reflexivity.
Defined.

(** ** Creation, deletion and the result listings *)

(** C6. Creating a student, or a test, under an identifier that the store
    does not hold succeeds and returns the record; reading that identifier
    back returns the very record that was supplied, every field included. *)
Theorem create_then_get (st : Store.t) :
  (∀ student,
     dict_contains (Student.id student) (Store.students st) = false →
     ∃ st', create_student student st = (Ok student, st') ∧
            get_student (Student.id student) st' = (Ok student, st')) ∧
  (∀ test,
     dict_contains (Test.id test) (Store.tests st) = false →
     ∃ st', create_test test st = (Ok test, st') ∧
            get_test (Test.id test) st' = (Ok test, st')).
Proof.
  split.
  - intros student Hfresh. eexists. split.
    + rewrite create_student_eq, Hfresh. reflexivity.
    + rewrite get_student_eq. cbn [Store.students].
      by rewrite dict_getitem_setitem.
  - intros test Hfresh. eexists. split.
    + rewrite create_test_eq, Hfresh. reflexivity.
    + rewrite get_test_eq. cbn [Store.tests].
      by rewrite dict_getitem_setitem.
Qed.

Lemma create_then_get_witness :
  (∃ st', create_student (Student.mk 2 "Bo Chen" "b@x.com" []) class_store
            = (Ok (Student.mk 2 "Bo Chen" "b@x.com" []), st') ∧
          get_student 2 st' = (Ok (Student.mk 2 "Bo Chen" "b@x.com" []), st')) ∧
  (∃ st', create_test (Test.mk 2 "Exam" 100) class_store
            = (Ok (Test.mk 2 "Exam" 100), st') ∧
          get_test 2 st' = (Ok (Test.mk 2 "Exam" 100), st')).
Proof.
  destruct (create_then_get class_store) as [Hs Ht]. split.
  - exact (Hs (Student.mk 2 "Bo Chen" "b@x.com" []) eq_refl).
  - exact (Ht (Test.mk 2 "Exam" 100) eq_refl).
Defined.

Lemma dict_values_delitem_keyed {V} (key : V → Z) k (d : dict V) :
  keyed_by key d →
  dict_values (dict_delitem k d) = filter (λ v, key v ≠ k) (dict_values d).
Proof.
  unfold keyed_by, dict_values, dict_delitem.
  induction 1 as [|[k0 v0] d Hk _ IH]; [done |]. cbn in Hk. subst k0.
  rewrite fmap_cons. cbn [snd].
  destruct (decide (key v0 = k)) as [Heq|Hne].
  - rewrite !filter_cons_False by (cbn; tauto). done.
  - rewrite !filter_cons_True by done. rewrite fmap_cons. cbn [snd]. by f_equal.
Qed.

(** C7. Deleting an identifier the store does not hold fails with 404
    "Student not found" and changes nothing. Deleting one it holds succeeds:
    reading that identifier afterwards fails with the same error, the
    listing is the former listing without that student and in the same
    order, the other students are still found, and [test_results] and
    [tests] are exactly what they were (results of the deleted student
    stay). *)
Theorem delete_student_spec (st : Store.t) (student_id : Z) :
  (dict_contains student_id (Store.students st) = false →
     delete_student student_id st = (Raise StudentNotFound, st)) ∧
  (dict_contains student_id (Store.students st) = true →
     ∃ st',
       delete_student student_id st
         = (Ok (ResponseMessage.mk "Student deleted successfully"), st') ∧
       get_student student_id st' = (Raise StudentNotFound, st') ∧
       (student_id ∉ dict_keys (Store.students st')) ∧
       (∃ l, get_all_students st' = (Ok l, st') ∧
             l = dict_values (filter (λ kv, kv.1 ≠ student_id) (Store.students st)) ∧
             (keyed_by Student.id (Store.students st) →
                l = filter (λ s, Student.id s ≠ student_id)
                      (dict_values (Store.students st)) ∧
                ∀ s, s ∈ l → Student.id s ≠ student_id)) ∧
       (∀ k, k ≠ student_id →
          dict_getitem k (Store.students st') = dict_getitem k (Store.students st)) ∧
       Store.test_results st' = Store.test_results st ∧
       Store.tests st' = Store.tests st).
Proof.
  rewrite delete_student_eq. split; intros ->; [done |].
  eexists. split; [reflexivity |]. cbn [Store.students Store.tests Store.test_results].
  pose proof (dict_contains_delitem student_id (Store.students st)) as Hgone.
  repeat match goal with |- _ ∧ _ => split end; try done.
  - rewrite get_student_eq. cbn [Store.students].
    apply dict_getitem_None in Hgone. by rewrite Hgone.
  - by apply dict_contains_false.
  - eexists. split; [reflexivity |]. split; [done |].
    intros Hkeyed. cbn [Store.students].
    rewrite (dict_values_delitem_keyed Student.id) by done.
    split; [done |]. by intros s [? _]%list_elem_of_filter.
  - intros k Hk. by apply dict_getitem_delitem_ne.
Qed.

Lemma delete_student_spec_witness :
  delete_student 5 two_students = (Raise StudentNotFound, two_students) ∧
  ∃ st', delete_student 1 two_students
           = (Ok (ResponseMessage.mk "Student deleted successfully"), st') ∧
         get_student 1 st' = (Raise StudentNotFound, st') ∧
         Store.test_results st' = Store.test_results two_students.
Proof.
  destruct (delete_student_spec two_students 5) as [H5 _].
  destruct (delete_student_spec two_students 1) as [_ H1].
  split; [exact (H5 eq_refl) |].
  destruct (H1 eq_refl) as (st' & Hdel & Hget & _ & _ & _ & Hres & _).
  exists st'. auto.
Defined.

(** C8. Listing the results of a student (of a test) fails with 404 when the
    store does not hold that student (test), whatever [test_results]
    contains; otherwise it returns the results that carry the identifier, in
    the order of [test_results]: the filtered list, which is a subsequence
    of [test_results] with exactly the matching items. *)
Theorem results_by_identifier (st : Store.t) (ident : Z) :
  (dict_contains ident (Store.students st) = false →
     get_student_results ident st = (Raise StudentNotFound, st)) ∧
  (dict_contains ident (Store.students st) = true →
     ∃ l, get_student_results ident st = (Ok l, st) ∧
          l = filter (λ r, TestResult.student_id r = ident) (Store.test_results st) ∧
          l `sublist_of` Store.test_results st ∧
          ∀ r, r ∈ l ↔ r ∈ Store.test_results st ∧ TestResult.student_id r = ident) ∧
  (dict_contains ident (Store.tests st) = false →
     get_test_results ident st = (Raise TestNotFound, st)) ∧
  (dict_contains ident (Store.tests st) = true →
     ∃ l, get_test_results ident st = (Ok l, st) ∧
          l = filter (λ r, TestResult.test_id r = ident) (Store.test_results st) ∧
          l `sublist_of` Store.test_results st ∧
          ∀ r, r ∈ l ↔ r ∈ Store.test_results st ∧ TestResult.test_id r = ident).
Proof.
  rewrite get_student_results_eq, get_test_results_eq.
  repeat match goal with |- _ ∧ _ => split end; intros ->; try done.
  - eexists. split; [reflexivity |]. split; [done |].
    split; [apply sublist_filter |].
    intros r. rewrite list_elem_of_filter. tauto.
  - eexists. split; [reflexivity |]. split; [done |].
    split; [apply sublist_filter |].
    intros r. rewrite list_elem_of_filter. tauto.
Qed.

Lemma results_by_identifier_witness :
  get_student_results 5 two_students = (Raise StudentNotFound, two_students) ∧
  (∃ l, get_student_results 1 two_students = (Ok l, two_students) ∧
        l = [TestResult.mk 1 1 18; TestResult.mk 1 1 20]) ∧
  get_test_results 5 two_students = (Raise TestNotFound, two_students) ∧
  (∃ l, get_test_results 1 two_students = (Ok l, two_students) ∧
        l = Store.test_results two_students).
Proof.
  destruct (results_by_identifier two_students 5) as (Hs5 & _ & Ht5 & _).
  destruct (results_by_identifier two_students 1) as (_ & Hs1 & _ & Ht1).
  split; [exact (Hs5 eq_refl) |].
  split.
  { destruct (Hs1 eq_refl) as (l & Hl & -> & _).
    eexists. split; [exact Hl | reflexivity]. }
  split; [exact (Ht5 eq_refl) |].
  destruct (Ht1 eq_refl) as (l & Hl & -> & _).
  eexists. split; [exact Hl | reflexivity].
Defined.

(** ** Aggregates *)

Lemma foldl_add_foldr (data : list Z) (a : Z) :
  foldl Z.add a data = a + foldr Z.add 0 data.
Proof.
  revert a. induction data as [|x data IH]; intros a; cbn; [lia |].
  rewrite IH. lia.
Qed.

Lemma py_sum_foldr (data : list Z) : py_sum data = foldr Z.add 0 data.
Proof. unfold py_sum. by rewrite foldl_add_foldr. Qed.

Section Best.
Variable better : Z → Z → bool.

Lemma foldl_keep_best_elem x rest : foldl (keep_best better) x rest ∈ x :: rest.
Proof.
  revert x. induction rest as [|y rest IH]; intros x; cbn; [apply list_elem_of_here |].
  specialize (IH (keep_best better x y)). apply elem_of_cons in IH as [->|?].
  - unfold keep_best. rewrite !elem_of_cons. destruct (better y x); auto.
  - rewrite !elem_of_cons. auto.
Qed.

Lemma foldl_keep_best_bound (R : relation Z) `{!PreOrder R} x rest :
  (∀ a b, R a (keep_best better a b) ∧ R b (keep_best better a b)) →
  Forall (λ y, R y (foldl (keep_best better) x rest)) (x :: rest).
Proof.
  intros Hstep.
  assert (Hmono : ∀ l a, R a (foldl (keep_best better) a l)).
  { induction l as [|y l IH]; intros a; cbn; [done |].
    etrans; [apply (Hstep a y) | apply IH]. }
  revert x. induction rest as [|y rest IH]; intros x; cbn.
  - by constructor.
  - specialize (IH (keep_best better x y)). apply Forall_cons in IH as [_ IH].
    repeat constructor; [| |done].
    + etrans; [apply (Hstep x y) | apply Hmono].
    + etrans; [apply (Hstep x y) | apply Hmono].
Qed.
End Best.

Lemma py_max_spec (data : list Z) (st : Store.t) :
  data ≠ [] →
  ∃ m, py_max data st = (Ok m, st) ∧ m ∈ data ∧ Forall (λ x, x ≤ m) data.
Proof.
  destruct data as [|x rest]; [done |]. intros _. eexists. split; [reflexivity |].
  split; [apply (foldl_keep_best_elem Z.gtb) |].
  apply (foldl_keep_best_bound Z.gtb Z.le).
  intros a b. unfold keep_best. destruct (Z.gtb_spec b a); lia.
Qed.

Lemma py_min_spec (data : list Z) (st : Store.t) :
  data ≠ [] →
  ∃ m, py_min data st = (Ok m, st) ∧ m ∈ data ∧ Forall (λ x, m ≤ x) data.
Proof.
  destruct data as [|x rest]; [done |]. intros _. eexists. split; [reflexivity |].
  split; [apply (foldl_keep_best_elem Z.ltb) |].
  apply (foldl_keep_best_bound Z.ltb (flip Z.le)).
  intros a b. unfold keep_best, flip. destruct (Z.ltb_spec b a); lia.
Qed.

Lemma statistics_mean_store data st : (statistics_mean data st).2 = st.
Proof.
  unfold statistics_mean. destruct data; [done |].
  destruct (Pos.eqb _ _); [done |]. by destruct (nearest_binary64 _ _).
Qed.

Lemma statistics_mean_raises data st e :
  data ≠ [] → (statistics_mean data st).1 = Raise e → e = OverflowError.
Proof.
  unfold statistics_mean. destruct data; [done |]. intros _.
  destruct (Pos.eqb _ _); [done |].
  destruct (nearest_binary64 _ _); [done |]. by intros [= <-].
Qed.

Lemma response_model_float_raises v e :
  response_model_float v = Raise e → e = ResponseValidationError.
Proof.
  destruct v as [k|x]; cbn; [|done].
  destruct (nearest_binary64 _ _); [done |]. by intros [= <-].
Qed.

(** The average as the route answers it for the scores [data]: the float
    nearest to their mean, the rational [mean] with [mean * count = sum],
    or a server error when that float is out of range. *)
Lemma statistics_mean_float (data : list Z) (st : Store.t) (mean : Q) :
  data ≠ [] →
  (mean * inject_Z (Z.of_nat (length data))
   == inject_Z (foldr Z.add 0%Z data))%Q →
  match binary64_nearest mean with
  | Some x => float_outcome (statistics_mean data st).1 = Ok (PyFloat x)
  | None => ∃ e, float_outcome (statistics_mean data st).1 = Raise e
                 ∧ server_error e
  end.
Proof.
  intros Hne Hmean.
  assert (Hlen : Z.pos (Pos.of_nat (length data)) = Z.of_nat (length data)).
  { destruct data; [done |]. cbn [length]. lia. }
  assert (Hred : Qred mean = Qred (py_sum data # Pos.of_nat (length data))).
  { apply Qred_complete. rewrite py_sum_foldr.
    destruct mean as [a b]. unfold Qeq, Qmult, inject_Z in *. cbn in *.
    rewrite Pos.mul_1_r in Hmean. lia. }
  unfold binary64_nearest. rewrite Hred.
  unfold statistics_mean.
  set (v := Qred (py_sum data # Pos.of_nat (length data))). clearbody v.
  destruct data as [|x rest]; [done |].
  destruct (Pos.eqb_spec (Qden v) 1) as [Hden|Hden]; cbn.
  - rewrite Hden. destruct (nearest_binary64 _ _); [done |].
    eexists. split; [done | by right].
  - destruct (nearest_binary64 _ _); cbn; [done |].
    eexists. split; [done | by left].
Qed.

Lemma scores_of_test_nil test_id (l : list TestResult.t) :
  scores_of_test test_id l = [] ↔ Forall (λ r, TestResult.test_id r ≠ test_id) l.
Proof.
  unfold scores_of_test. rewrite Forall_forall. split.
  - intros Hnil%fmap_nil_inv r Hr Heq.
    by apply (filter_nil_not_elem_of _ _ r Hnil).
  - intros Hall. destruct (filter _ l) as [|r l'] eqn:E; [done |].
    assert (r ∈ filter (λ r, TestResult.test_id r = test_id) l) as Hin
      by (rewrite E; apply list_elem_of_here).
    apply list_elem_of_filter in Hin as [Heq Hin]. by destruct (Hall r Hin).
Qed.

Lemma foldr_add_Permutation (l1 l2 : list Z) :
  l1 ≡ₚ l2 → foldr Z.add 0 l1 = foldr Z.add 0 l2.
Proof. induction 1; cbn; lia. Qed.

Section AggregateHandlers.
Variables (st : Store.t) (test_id : Z).

Lemma get_test_average_body_eq :
  get_test_average_body test_id st = guarded_scores st test_id statistics_mean.
Proof.
  unfold get_test_average_body, guarded_scores. unfold_monad.
  destruct (dict_contains _ _); [|done]. cbn. by case_bool_decide.
Qed.

Lemma get_test_highest_eq : get_test_highest test_id st = guarded_scores st test_id py_max.
Proof.
  unfold get_test_highest, guarded_scores. unfold_monad.
  destruct (dict_contains _ _); [|done]. cbn. by case_bool_decide.
Qed.

Lemma get_test_lowest_eq : get_test_lowest test_id st = guarded_scores st test_id py_min.
Proof.
  unfold get_test_lowest, guarded_scores. unfold_monad.
  destruct (dict_contains _ _); [|done]. cbn. by case_bool_decide.
Qed.
End AggregateHandlers.

Lemma guarded_scores_store {A} st test_id (k : list Z → handler A) :
  (∀ data, (k data st).2 = st) → (guarded_scores st test_id k).2 = st.
Proof.
  intros Hk. unfold guarded_scores.
  destruct (dict_contains _ _); [|done]. by case_bool_decide.
Qed.

Lemma py_max_store data st : (py_max data st).2 = st.
Proof. by destruct data. Qed.

Lemma py_min_store data st : (py_min data st).2 = st.
Proof. by destruct data. Qed.

Lemma get_test_average_eq test_id st :
  get_test_average test_id st
    = (float_outcome (guarded_scores st test_id statistics_mean).1, st).
Proof.
  unfold get_test_average, bind. rewrite get_test_average_body_eq.
  pose proof (guarded_scores_store st test_id statistics_mean
                (λ data, statistics_mean_store data st)) as H.
  destruct (guarded_scores _ _ _) as [[v|e] st']; cbn in *; by subst st'.
Qed.

Lemma get_test_average_outcome test_id st :
  (get_test_average test_id st).1
    = float_outcome (guarded_scores st test_id statistics_mean).1.
Proof. by rewrite get_test_average_eq. Qed.

(** C4, as the code has it. Each aggregate of a test fails with 404 "Test
    not found" when the store does not hold the test; otherwise, when no
    recorded result carries the test id, it fails with 404 "No results found
    for this test". Otherwise the highest is the score of a recorded result
    of the test that no other result of the test exceeds, the lowest is one
    that exceeds no other, and the average is the float nearest to the mean
    of the scores of the test's results (ties to even) when that float
    exists; when the mean is beyond the range of a float the request fails
    with a server error instead. When the recorded scores of the test are 5,
    10 and 15 in any order the three answers are 10.0, 15 and 5. None of
    them changes the store. *)
Theorem aggregates_spec (st : Store.t) (test_id : Z) :
  let matching :=
    filter (λ r, TestResult.test_id r = test_id) (Store.test_results st) in
  let scores := TestResult.score <$> matching in
  (dict_contains test_id (Store.tests st) = false →
     get_test_average test_id st = (Raise TestNotFound, st) ∧
     get_test_highest test_id st = (Raise TestNotFound, st) ∧
     get_test_lowest test_id st = (Raise TestNotFound, st)) ∧
  (dict_contains test_id (Store.tests st) = true →
   Forall (λ r, TestResult.test_id r ≠ test_id) (Store.test_results st) →
     get_test_average test_id st = (Raise NoResults, st) ∧
     get_test_highest test_id st = (Raise NoResults, st) ∧
     get_test_lowest test_id st = (Raise NoResults, st)) ∧
  (dict_contains test_id (Store.tests st) = true →
   ¬ Forall (λ r, TestResult.test_id r ≠ test_id) (Store.test_results st) →
     (∀ mean : Q,
        (mean * inject_Z (Z.of_nat (length scores))
         == inject_Z (foldr Z.add 0%Z scores))%Q →
        match binary64_nearest mean with
        | Some x => get_test_average test_id st = (Ok (PyFloat x), st)
        | None => ∃ e, get_test_average test_id st = (Raise e, st)
                       ∧ server_error e
        end) ∧
     ∃ hi lo,
       get_test_highest test_id st = (Ok hi, st) ∧
       (∃ r, r ∈ Store.test_results st ∧ TestResult.test_id r = test_id
             ∧ TestResult.score r = hi) ∧
       (∀ r, r ∈ Store.test_results st → TestResult.test_id r = test_id →
             TestResult.score r ≤ hi) ∧
       get_test_lowest test_id st = (Ok lo, st) ∧
       (∃ r, r ∈ Store.test_results st ∧ TestResult.test_id r = test_id
             ∧ TestResult.score r = lo) ∧
       (∀ r, r ∈ Store.test_results st → TestResult.test_id r = test_id →
             lo ≤ TestResult.score r)) ∧
  (dict_contains test_id (Store.tests st) = true →
   scores ≡ₚ [5; 10; 15] →
     (∃ x, get_test_average test_id st = (Ok (PyFloat x), st) ∧
           x = S754_finite false 5629499534213120 (-49) ∧
           (binary64_value x == 10)%Q) ∧
     get_test_highest test_id st = (Ok 15, st) ∧
     get_test_lowest test_id st = (Ok 5, st)).
Proof.
  intros matching scores.
  rewrite get_test_average_eq, get_test_highest_eq, get_test_lowest_eq.
  unfold guarded_scores.
  change (scores_of_test test_id (Store.test_results st)) with scores.
  assert (Hselect : ∀ x, x ∈ scores ↔
            ∃ r, r ∈ Store.test_results st ∧ TestResult.test_id r = test_id
                 ∧ TestResult.score r = x).
  { intros x. unfold scores, matching. rewrite list_elem_of_fmap. split.
    - intros (r & -> & [? ?]%list_elem_of_filter). by exists r.
    - intros (r & Hr & Hid & <-). exists r. split; [done |].
      by apply list_elem_of_filter. }
  assert (Hnone : scores = []
            ↔ Forall (λ r, TestResult.test_id r ≠ test_id) (Store.test_results st))
    by apply scores_of_test_nil.
  assert (Hextreme : scores ≠ [] →
    ∃ hi lo,
      py_max scores st = (Ok hi, st) ∧
      (∃ r, r ∈ Store.test_results st ∧ TestResult.test_id r = test_id
            ∧ TestResult.score r = hi) ∧
      (∀ r, r ∈ Store.test_results st → TestResult.test_id r = test_id →
            TestResult.score r ≤ hi) ∧
      py_min scores st = (Ok lo, st) ∧
      (∃ r, r ∈ Store.test_results st ∧ TestResult.test_id r = test_id
            ∧ TestResult.score r = lo) ∧
      (∀ r, r ∈ Store.test_results st → TestResult.test_id r = test_id →
            lo ≤ TestResult.score r)).
  { intros Hne.
    destruct (py_max_spec scores st Hne) as (hi & Hhi & Hhin & Hhib).
    destruct (py_min_spec scores st Hne) as (lo & Hlo & Hlin & Hlob).
    rewrite Forall_forall in Hhib, Hlob.
    exists hi, lo. split; [done |]. split; [by apply Hselect |].
    split; [|split; [done |]; split; [by apply Hselect |]].
    - intros r Hr Hid. apply Hhib, Hselect. by exists r.
    - intros r Hr Hid. apply Hlob, Hselect. by exists r. }
  repeat match goal with |- _ ∧ _ => split end.
  - by intros ->.
  - intros -> Hall%Hnone. by rewrite bool_decide_eq_true_2.
  - intros -> Hsome. rewrite <- Hnone in Hsome.
    rewrite bool_decide_eq_false_2 by done. split; [|by apply Hextreme].
    intros mean Hmean.
    pose proof (statistics_mean_float scores st mean Hsome Hmean) as Havg.
    destruct (binary64_nearest mean) as [x|].
    + by rewrite Havg.
    + destruct Havg as (e & -> & He). by exists e.
  - intros -> Hperm.
    assert (Hne : scores ≠ []).
    { intros Hnil. rewrite Hnil in Hperm. by apply Permutation_nil_l in Hperm. }
    rewrite bool_decide_eq_false_2 by done.
    assert (Hmean : (10 * inject_Z (Z.of_nat (length scores))
                     == inject_Z (foldr Z.add 0%Z scores))%Q).
    { by rewrite (Permutation_length Hperm), (foldr_add_Permutation _ _ Hperm). }
    pose proof (statistics_mean_float scores st 10%Q Hne Hmean) as Havg.
    change (binary64_nearest 10) with (Some (S754_finite false 5629499534213120 (-49)))
      in Havg.
    rewrite Havg.
    destruct (py_max_spec scores st Hne) as (hi & -> & Hhi & Hhib).
    destruct (py_min_spec scores st Hne) as (lo & -> & Hlo & Hlob).
    rewrite Forall_forall in Hhib, Hlob.
    assert (H5 : 5 ∈ scores) by (rewrite Hperm; rewrite !elem_of_cons; auto).
    assert (H15 : 15 ∈ scores) by (rewrite Hperm; rewrite !elem_of_cons; auto).
    apply Hhib in H15. apply Hlob in H5. rewrite Hperm in Hhi, Hlo.
    rewrite !elem_of_cons, elem_of_nil in Hhi, Hlo.
    assert (hi = 15) as -> by lia. assert (lo = 5) as -> by lia.
    split; [|done]. eexists. split; [reflexivity |]. split; [reflexivity | done].
Qed.

Lemma aggregates_spec_witness :
  get_test_average 9 graded_store = (Raise TestNotFound, graded_store) ∧
  get_test_highest 2 graded_store = (Raise NoResults, graded_store) ∧
  (∃ x, get_test_average 1 graded_store = (Ok (PyFloat x), graded_store) ∧
        (binary64_value x == 10)%Q) ∧
  get_test_lowest 1 graded_store = (Ok 5, graded_store).
Proof.
  destruct (aggregates_spec graded_store 9) as (H9 & _).
  destruct (aggregates_spec graded_store 2) as (_ & H2 & _).
  destruct (aggregates_spec graded_store 1) as (_ & _ & _ & H1).
  assert (Hperm : [15; 5; 10] ≡ₚ [5; 10; 15]).
  { etrans; [apply perm_swap | apply perm_skip, perm_swap]. }
  split; [apply (H9 eq_refl) |].
  split.
  { apply (H2 eq_refl). repeat constructor; cbn; lia. }
  destruct (H1 eq_refl Hperm) as ((x & Havg & _ & Hval) & _ & Hlow).
  split; [by exists x | exact Hlow].
Defined.

(** The rounding of some exact values: 4/3; an odd integer just beyond
    2^53, which goes to the even neighbour; the mean of 2^54+1 and 2^54+2,
    which goes below both; the largest float; and the first value that is
    out of range. *)
Example nearest_binary64_values :
  nearest_binary64 4 3 = Some (S754_finite false 6004799503160661 (-52)) ∧
  nearest_binary64 (-9007199254740993) 1
    = nearest_binary64 (-9007199254740992) 1 ∧
  nearest_binary64 (2 ^ 55 + 3) 2 = nearest_binary64 (2 ^ 54) 1 ∧
  nearest_binary64 (2 ^ 1024 - 2 ^ 970 - 1) 1
    = Some (S754_finite false 9007199254740991 971) ∧
  nearest_binary64 (2 ^ 1024 - 2 ^ 970) 1 = None.
Proof. by vm_compute. Qed.

(** A reachable store on which the average neither fails with one of the
    two 404 errors nor returns: the test is there and has two results, the
    highest and the lowest answer, and the average raises [OverflowError]. *)
Lemma average_overflows :
  get_test 1 (run huge_requests Store.empty)
    = (Ok (Test.mk 1 "Quiz" (2 ^ 1100)), run huge_requests Store.empty) ∧
  get_test_results 1 (run huge_requests Store.empty)
    = (Ok [TestResult.mk 1 1 (2 ^ 1100); TestResult.mk 1 1 1],
       run huge_requests Store.empty) ∧
  (get_test_highest 1 (run huge_requests Store.empty)).1 = Ok (2 ^ 1100) ∧
  (get_test_lowest 1 (run huge_requests Store.empty)).1 = Ok 1 ∧
  get_test_average 1 (run huge_requests Store.empty)
    = (Raise OverflowError, run huge_requests Store.empty).
Proof. repeat split; by vm_compute. Qed.

(** ** Requests as transitions of the store *)

(** A request that fails leaves the store alone; one that succeeds leaves it
    alone too or has one of the four effects. *)
Lemma step_effect (q : request) (st : Store.t) :
  step q st = st ∨ (succeeds q st ∧ effect st q (step q st)).
Proof.
  unfold step, succeeds. destruct q; cbn [serve]; unfold fmap_handler, bind.
  - rewrite create_student_eq.
    destruct (dict_contains _ _) eqn:E; [by left | right].
    split; [by eexists | by constructor].
  - rewrite get_student_eq. left. by destruct (dict_getitem _ _).
  - by left.
  - rewrite delete_student_eq.
    destruct (dict_contains _ _) eqn:E; [right | by left].
    split; [by eexists | by constructor].
  - rewrite create_test_eq.
    destruct (dict_contains _ _) eqn:E; [by left | right].
    split; [by eexists | by constructor].
  - rewrite get_test_eq. left. by destruct (dict_getitem _ _).
  - by left.
  - rewrite submit_test_result_eq.
    destruct (dict_getitem _ (Store.students st)) as [student|] eqn:Es; [|by left].
    destruct (dict_getitem _ (Store.tests st)) as [test|] eqn:Et; [|by left].
    destruct (Z.gtb_spec (TestResult.score result) (Test.max_score test));
      [by left | right].
    split; [by eexists | by econstructor].
  - rewrite get_student_results_eq. left. by destruct (dict_contains _ _).
  - rewrite get_test_results_eq. left. by destruct (dict_contains _ _).
  - left. rewrite get_test_average_eq. by destruct (float_outcome _).
  - left. rewrite get_test_highest_eq.
    pose proof (guarded_scores_store st test_id py_max
                  (λ data, py_max_store data st)) as H.
    destruct (guarded_scores _ _ _) as [[v|e] st']; cbn in *; done.
  - left. rewrite get_test_lowest_eq.
    pose proof (guarded_scores_store st test_id py_min
                  (λ data, py_min_store data st)) as H.
    destruct (guarded_scores _ _ _) as [[v|e] st']; cbn in *; done.
Qed.

Lemma run_snoc qs q st : run (qs ++ [q]) st = step q (run qs st).
Proof. unfold run. by rewrite foldl_app. Qed.

Lemma reachable_run st : reachable st ↔ ∃ qs, st = run qs Store.empty.
Proof.
  split.
  - induction 1 as [|q st _ [qs ->]]; [by exists [] |].
    exists (qs ++ [q]). by rewrite run_snoc.
  - intros [qs ->]. induction qs as [|q qs IH] using rev_ind; [constructor |].
    rewrite run_snoc. by constructor.
Qed.

(** Tests are never changed or removed. *)
Lemma step_test_stable q st k test :
  dict_getitem k (Store.tests st) = Some test →
  dict_getitem k (Store.tests (step q st)) = Some test.
Proof.
  intros Hk. destruct (step_effect q st) as [->|[_ Heff]]; [done |].
  destruct Heff as [ | |t Hfresh| ]; cbn [Store.tests]; try done.
  rewrite dict_getitem_setitem_ne; [done |].
  intros <-. apply dict_getitem_None in Hfresh. congruence.
Qed.

(** ** The score bound on recorded results *)

Lemma step_test_results q st :
  Store.test_results (step q st) = Store.test_results st
  ∨ ∃ r, q = SubmitTestResult r ∧ score_within_max st r
         ∧ Store.test_results (step q st) = Store.test_results st ++ [r].
Proof.
  destruct (step_effect q st) as [->|[_ Heff]]; [by left |].
  destruct Heff as [ | | |r s t Hs Ht Hle]; cbn [Store.test_results]; try by left.
  right. exists r. split; [done |]. split; [by exists t | done].
Qed.

Lemma run_app qs1 qs2 st : run (qs1 ++ qs2) st = run qs2 (run qs1 st).
Proof. unfold run. by rewrite foldl_app. Qed.

Lemma score_within_max_run qs st r :
  score_within_max st r → score_within_max (run qs st) r.
Proof.
  intros (test & Ht & Hle). exists test. split; [|done]. clear Hle.
  induction qs as [|q qs IH] using rev_ind; [done |].
  rewrite run_snoc. by apply step_test_stable.
Qed.

(** The bound is an invariant of the reachable stores. *)
Lemma reachable_results_within_max st :
  reachable st → Forall (score_within_max st) (Store.test_results st).
Proof.
  induction 1 as [|q st _ IH]; [constructor |].
  assert (Hold : Forall (score_within_max (step q st)) (Store.test_results st)).
  { eapply Forall_impl; [exact IH |]. intros r Hr.
    by apply (score_within_max_run [q]). }
  destruct (step_test_results q st) as [->|(r & -> & Hr & ->)]; [done |].
  apply Forall_app. split; [done |]. constructor; [|done].
  by apply (score_within_max_run [SubmitTestResult r]).
Qed.

(** C5. After any sequence of requests from the freshly loaded module, the
    result at each position of [test_results] was put there by a submission
    of that sequence, made when the collection had exactly that many items,
    and at that moment the referenced test was in the store with a
    [max_score] not below the score; the same holds in the final store. *)
Theorem results_within_max_score (qs : list request) (i : nat) (r : TestResult.t) :
  Store.test_results (run qs Store.empty) !! i = Some r →
  ∃ qs1 qs2,
    qs = qs1 ++ SubmitTestResult r :: qs2 ∧
    length (Store.test_results (run qs1 Store.empty)) = i ∧
    score_within_max (run qs1 Store.empty) r ∧
    score_within_max (run qs Store.empty) r.
Proof.
  induction qs as [|q qs IH] using rev_ind; [done |].
  rewrite run_snoc. intros Hi.
  assert (Hold : Store.test_results (run qs Store.empty) !! i = Some r →
    ∃ qs1 qs2,
      qs ++ [q] = qs1 ++ SubmitTestResult r :: qs2 ∧
      length (Store.test_results (run qs1 Store.empty)) = i ∧
      score_within_max (run qs1 Store.empty) r ∧
      score_within_max (step q (run qs Store.empty)) r).
  { intros (qs1 & qs2 & -> & Hlen & Hthen & Hnow)%IH.
    exists qs1, (qs2 ++ [q]). split; [by rewrite <- app_assoc |].
    split; [done |]. split; [done |].
    rewrite <- run_snoc, run_app. by apply score_within_max_run. }
  destruct (step_test_results q (run qs Store.empty)) as [Heq|(r' & -> & Hr' & Heq)];
    rewrite Heq in Hi; [by apply Hold |].
  apply lookup_app_Some in Hi as [Hi|[Hge Hi]]; [by apply Hold |].
  apply list_lookup_singleton_Some in Hi as [Hi ->].
  exists qs, []. split; [done |]. split; [lia |]. split; [done |].
  rewrite <- run_snoc, run_app. by apply score_within_max_run.
Qed.

Lemma results_within_max_score_witness :
  ∃ qs1 qs2,
    [CreateStudent ann; CreateTest quiz; SubmitTestResult (TestResult.mk 1 1 25);
     SubmitTestResult (TestResult.mk 1 1 18); GetAllTests]
      = qs1 ++ SubmitTestResult (TestResult.mk 1 1 18) :: qs2 ∧
    length (Store.test_results (run qs1 Store.empty)) = 0%nat ∧
    score_within_max (run qs1 Store.empty) (TestResult.mk 1 1 18).
Proof.
  destruct (results_within_max_score
              [CreateStudent ann; CreateTest quiz;
               SubmitTestResult (TestResult.mk 1 1 25);
               SubmitTestResult (TestResult.mk 1 1 18); GetAllTests]
              0 (TestResult.mk 1 1 18))
    as (qs1 & qs2 & H1 & H2 & H3 & _).
  - reflexivity.
  - by exists qs1, qs2.
Defined.

(** ** The taken-tests sequence of a student *)

Lemma serve_submit_ok r st a :
  (serve (SubmitTestResult r) st).1 = Ok a → a = RResult r.
Proof.
  cbn [serve]. unfold fmap_handler, bind. rewrite submit_test_result_eq.
  destruct (dict_getitem _ (Store.students st)); [|done].
  destruct (dict_getitem _ (Store.tests st)); [|done].
  destruct (_ >? _); [done |]. cbn. congruence.
Qed.

Lemma step_student q st k s s' :
  dict_getitem k (Store.students st) = Some s →
  dict_getitem k (Store.students (step q st)) = Some s' →
  s' = s
  ∨ ∃ r, q = SubmitTestResult r ∧ TestResult.student_id r = k
         ∧ (serve q st).1 = Ok (RResult r)
         ∧ s' = Student.append_test (TestResult.test_id r) s.
Proof.
  intros Hs. destruct (step_effect q st) as [->|[[a Hok] Heff]]; [left; congruence |].
  destruct Heff as [s0 Hfresh|sid Hin| |r s1 t Hs1 Ht Hle]; cbn [Store.students].
  - rewrite dict_getitem_setitem_ne; [left; congruence |].
    intros <-. apply dict_getitem_None in Hfresh. congruence.
  - destruct (decide (sid = k)) as [->|Hne].
    + pose proof (dict_contains_delitem k (Store.students st)) as Hgone.
      apply dict_getitem_None in Hgone. congruence.
    + rewrite dict_getitem_delitem_ne by done. left; congruence.
  - left; congruence.
  - destruct (decide (TestResult.student_id r = k)) as [<-|Hne].
    + rewrite dict_getitem_setitem. intros [= <-]. right. exists r.
      split; [done |]. split; [done |].
      split; [by rewrite Hok, (serve_submit_ok _ _ _ Hok) | congruence].
    + rewrite dict_getitem_setitem_ne by done. left; congruence.
Qed.

(** C9, as the code has it. A created student is stored with the
    [tests_taken] of the request body: the empty list when the body leaves
    the field out, the given list otherwise; a body is decoded exactly when
    its name has 2 to 50 characters, whatever it says about [tests_taken].
    From then on, as long as the
    student stays in the store, a request either leaves the student's record
    as it is or is a successful submission for that student, which appends
    the submitted test id to [tests_taken] and changes no other field. *)
Theorem tests_taken_lifecycle (st : Store.t) :
  (∀ student,
     dict_contains (Student.id student) (Store.students st) = false →
     dict_getitem (Student.id student)
       (Store.students (step (CreateStudent student) st)) = Some student) ∧
  (∀ ident name email given student,
     Student.decode ident name email given = Some student →
     Student.tests_taken student = default [] given) ∧
  (∀ ident name email given,
     (2 ≤ len name ≤ 50)%nat ↔
     Student.decode ident name email given
       = Some (Student.mk ident name email (default [] given))) ∧
  (∀ q k s s',
     dict_getitem k (Store.students st) = Some s →
     dict_getitem k (Store.students (step q st)) = Some s' →
     s' = s
     ∨ ∃ r, q = SubmitTestResult r ∧ TestResult.student_id r = k
            ∧ (serve q st).1 = Ok (RResult r)
            ∧ Student.tests_taken s' = Student.tests_taken s ++ [TestResult.test_id r]
            ∧ Student.id s' = Student.id s
            ∧ Student.name s' = Student.name s
            ∧ Student.email s' = Student.email s).
Proof.
  repeat match goal with |- _ ∧ _ => split end.
  - intros student Hfresh. unfold step. cbn [serve]. unfold fmap_handler, bind.
    rewrite create_student_eq, Hfresh. cbn. apply dict_getitem_setitem.
  - intros ident name email given student. unfold Student.decode.
    destruct (_ && _); [|done]. by intros [= <-].
  - intros ident name email given. unfold Student.decode.
    destruct (Nat.leb_spec 2 (len name)), (Nat.leb_spec (len name) 50); cbn;
      split; intros; (done || lia).
  - intros q k s s' Hs Hs'.
    destruct (step_student q st k s s' Hs Hs') as [->|(r & -> & <- & Hok & ->)];
      [by left | right].
    by exists r.
Qed.

Lemma tests_taken_lifecycle_witness :
  dict_getitem 2 (Store.students
      (step (CreateStudent (Student.mk 2 "Bo Chen" "b@x.com" [4; 4])) class_store))
    = Some (Student.mk 2 "Bo Chen" "b@x.com" [4; 4]) ∧
  Student.tests_taken (Student.mk 3 "Cy" "c@x.com" []) = [] ∧
  Student.decode 4 "Александра Константиновна Преображенская" "p@x.com" (Some [9])
    = Some (Student.mk 4 "Александра Константиновна Преображенская" "p@x.com" [9]) ∧
  (Student.mk 1 "Ann Lee" "a@x.com" [1] = ann
   ∨ ∃ r, SubmitTestResult (TestResult.mk 1 1 18) = SubmitTestResult r
          ∧ Student.tests_taken (Student.mk 1 "Ann Lee" "a@x.com" [1])
            = Student.tests_taken ann ++ [TestResult.test_id r]).
Proof.
  destruct (tests_taken_lifecycle class_store)
    as (Hcreate & Hdecode & Haccept & Hstep).
  split; [exact (Hcreate (Student.mk 2 "Bo Chen" "b@x.com" [4; 4]) eq_refl) |].
  split; [exact (Hdecode 3 "Cy" "c@x.com" None _ eq_refl) |].
  split.
  { apply (Haccept 4 "Александра Константиновна Преображенская" "p@x.com" (Some [9])).
    change (2 ≤ 40 ≤ 50)%nat. lia. }
  destruct (Hstep (SubmitTestResult (TestResult.mk 1 1 18)) 1 ann
              (Student.mk 1 "Ann Lee" "a@x.com" [1]) eq_refl eq_refl)
    as [Hsame|(r & Hq & _ & _ & Htaken & _)].
  - by left.
  - right. by exists r.
Defined.

(** Lengths count characters: a name of 40 Cyrillic letters and spaces (78
    bytes) is accepted, and a name of the single letter e-acute (2 bytes)
    is refused. *)
Example len_counts_characters :
  len "Александра Константиновна Преображенская" = 40%nat ∧
  String.length "Александра Константиновна Преображенская" = 78%nat ∧
  len "é" = 1%nat ∧
  Student.decode 1 "é" "e@x.com" None = None.
Proof. by vm_compute. Qed.

(** A student created with a [tests_taken] of its own: no result was ever
    submitted, and the stored sequence is not empty. *)
Lemma tests_taken_given_at_creation :
  Student.decode 1 "Ann Lee" "a@x.com" (Some [7])
    = Some (Student.mk 1 "Ann Lee" "a@x.com" [7]) ∧
  ∃ st' s,
    create_student (Student.mk 1 "Ann Lee" "a@x.com" [7]) Store.empty
      = (Ok (Student.mk 1 "Ann Lee" "a@x.com" [7]), st') ∧
    Store.test_results st' = [] ∧
    get_student 1 st' = (Ok s, st') ∧
    Student.tests_taken s = [7] ∧
    Student.tests_taken s ≠ [].
Proof.
  split; [reflexivity |]. eexists _, _.
  split; [reflexivity |]. split; [reflexivity |]. split; [reflexivity |].
  split; [reflexivity | discriminate].
Qed.

(** ** The order of the listings *)

Lemma replay_snoc qs q : replay (qs ++ [q]) = record_request (replay qs) q.
Proof. unfold replay. by rewrite foldl_app. Qed.

Lemma StronglySorted_filter {A} (R : relation A) (P : A → Prop)
    `{∀ x, Decision (P x)} (l : list A) :
  StronglySorted R l → StronglySorted R (filter P l).
Proof.
  induction 1 as [|x l _ IH Hx]; [constructor |].
  rewrite filter_cons. case_decide; [|done].
  constructor; [done |]. rewrite Forall_forall in Hx |- *.
  intros y [_ Hy]%list_elem_of_filter. by apply Hx.
Qed.

Lemma StronglySorted_stamped_snoc {A} (l : list (nat * A)) (t : nat) (a : A) :
  StronglySorted stamped_before l →
  (∀ e, e ∈ l → (e.1 < t)%nat) →
  StronglySorted stamped_before (l ++ [(t, a)]).
Proof.
  intros Hl Hlt. apply StronglySorted_app_2; [|done|repeat constructor].
  intros e1 e2 He1 ->%list_elem_of_singleton. by apply Hlt.
Qed.

Lemma origin_snoc {A} (qs : list request) (q : request) (l : list (nat * A))
    (mk_request : A → request) :
  (∀ t a, (t, a) ∈ l → qs !! t = Some (mk_request a)) →
  ∀ t a, (t, a) ∈ l → (qs ++ [q]) !! t = Some (mk_request a).
Proof. intros Hl t a Hin. apply lookup_app_l_Some. by apply Hl. Qed.

Lemma origin_bound {A} (qs : list request) (l : list (nat * A))
    (mk_request : A → request) :
  (∀ t a, (t, a) ∈ l → qs !! t = Some (mk_request a)) →
  ∀ e, e ∈ l → (e.1 < length qs)%nat.
Proof.
  intros Hl [t a] Hin. cbn. apply Hl in Hin. by apply lookup_lt_Some in Hin.
Qed.

Lemma created_as_refl s : created_as s s.
Proof. by repeat split. Qed.

Lemma created_as_append x s created :
  created_as s created → created_as (Student.append_test x s) created.
Proof.
  intros (? & ? & ? & ?). repeat split; cbn; try done. by apply prefix_app_r.
Qed.

(** Appending to the [tests_taken] of a stored student keeps every entry
    matched with its log entry. *)
Lemma Forall2_entry_matches_setitem d log k s x :
  Forall2 entry_matches d log →
  dict_getitem k d = Some s →
  Forall2 entry_matches (dict_setitem k (Student.append_test x s) d) log.
Proof.
  induction 1 as [|[k0 s0] e d log [Hk Hc] Hrest IH]; [done |]. cbn.
  destruct (Z.eqb_spec k0 k) as [->|Hne].
  - intros [= ->]. constructor; [|done].
    split; [exact Hk |]. by apply created_as_append.
  - intros Hs. constructor; [by split | auto].
Qed.

Lemma history_inv_step qs q h :
  history_inv qs h → history_inv (qs ++ [q]) (record_request h q).
Proof.
  intros [Hstore Hclock Hstudents Htests Hso Hto Hsorig Htorig].
  pose proof (origin_bound _ _ _ Hsorig) as Hsbound.
  pose proof (origin_bound _ _ _ Htorig) as Htbound.
  pose proof (origin_snoc qs q _ _ Hsorig) as Hsorig'.
  pose proof (origin_snoc qs q _ _ Htorig) as Htorig'.
  assert (Hlast : (qs ++ [q]) !! clock h = Some q).
  { rewrite Hclock. by rewrite list_lookup_middle. }
  assert (Hquiet : step q (store h) = store h →
    (match q with
     | CreateStudent _ | DeleteStudent _ | CreateTest _ =>
         is_ok (serve q (store h)).1 = false
     | _ => True
     end) →
    history_inv (qs ++ [q]) (record_request h q)).
  { intros Hstep Hfail. unfold record_request. rewrite Hstep.
    constructor; cbn [store clock student_log test_log].
    - by rewrite run_snoc, <- Hstore.
    - rewrite length_app. cbn. lia.
    - by destruct q; rewrite ?Hfail.
    - by destruct q; rewrite ?Hfail.
    - by destruct q; rewrite ?Hfail.
    - by destruct q; rewrite ?Hfail.
    - by destruct q; rewrite ?Hfail.
    - by destruct q; rewrite ?Hfail. }
  destruct q as [s|k| |k|x|k| |r|k|k|k|k|k];
    try (apply Hquiet; [|done];
         match goal with
         | |- step ?q' ?st = _ =>
             by destruct (step_effect q' st) as [?|[_ Heff]]; [|inversion Heff]
         end).
  - (* CreateStudent *)
    destruct (dict_contains (Student.id s) (Store.students (store h))) eqn:Hin.
    { apply Hquiet; unfold step; cbn [serve]; unfold fmap_handler, bind;
        by rewrite create_student_eq, Hin. }
    unfold record_request, step. cbn [serve]. unfold fmap_handler, bind.
    rewrite create_student_eq, Hin. unfold ret. cbn [fst snd is_ok].
    constructor; cbn [store clock student_log test_log Store.students Store.tests]; try done.
    + rewrite run_snoc, <- Hstore. unfold step. cbn [serve].
      unfold fmap_handler, bind. by rewrite create_student_eq, Hin.
    + rewrite length_app. cbn. lia.
    + rewrite dict_setitem_fresh by done. apply Forall2_app; [done |].
      constructor; [|done]. split; [done | apply created_as_refl].
    + apply StronglySorted_stamped_snoc; [done |]. by rewrite Hclock.
    + intros t s' [Hin'|[= -> ->]%list_elem_of_singleton]%elem_of_app;
        [by apply Hsorig' | done].
  - (* DeleteStudent *)
    destruct (dict_contains k (Store.students (store h))) eqn:Hin. 2:
    { apply Hquiet; unfold step; cbn [serve]; unfold fmap_handler, bind;
        by rewrite delete_student_eq, Hin. }
    unfold record_request, step. cbn [serve]. unfold fmap_handler, bind.
    rewrite delete_student_eq, Hin. unfold ret. cbn [fst snd is_ok].
    constructor; cbn [store clock student_log test_log Store.students Store.tests]; try done.
    + rewrite run_snoc, <- Hstore. unfold step. cbn [serve].
      unfold fmap_handler, bind. by rewrite delete_student_eq, Hin.
    + rewrite length_app. cbn. lia.
    + unfold dict_delitem. apply Forall2_filter; [|done].
      intros [k0 s0] [t0 c0] [Hk _]. cbn in *. by rewrite Hk.
    + by apply StronglySorted_filter.
    + intros t s' [_ Hin']%list_elem_of_filter. by apply Hsorig'.
  - (* CreateTest *)
    destruct (dict_contains (Test.id x) (Store.tests (store h))) eqn:Hin.
    { apply Hquiet; unfold step; cbn [serve]; unfold fmap_handler, bind;
        by rewrite create_test_eq, Hin. }
    unfold record_request, step. cbn [serve]. unfold fmap_handler, bind.
    rewrite create_test_eq, Hin. unfold ret. cbn [fst snd is_ok].
    constructor; cbn [store clock student_log test_log Store.students Store.tests]; try done.
    + rewrite run_snoc, <- Hstore. unfold step. cbn [serve].
      unfold fmap_handler, bind. by rewrite create_test_eq, Hin.
    + rewrite length_app. cbn. lia.
    + rewrite dict_setitem_fresh by done. by rewrite Htests, fmap_app.
    + apply StronglySorted_stamped_snoc; [done |]. by rewrite Hclock.
    + intros t x' [Hin'|[= -> ->]%list_elem_of_singleton]%elem_of_app;
        [by apply Htorig' | done].
  - (* SubmitTestResult *)
    destruct (step_effect (SubmitTestResult r) (store h)) as [Heq|[_ Heff]];
      [by apply Hquiet |].
    unfold record_request.
    inversion Heff as [ | | |r' s x Hs Hx Hle Hr Hstep]; subst r'.
    constructor; cbn [store clock student_log test_log Store.students Store.tests]; try done.
    + by rewrite run_snoc, <- Hstore.
    + rewrite length_app. cbn. lia.
    + by apply Forall2_entry_matches_setitem.
Qed.

Lemma history_inv_replay qs : history_inv qs (replay qs).
Proof.
  induction qs as [|q qs IH] using rev_ind.
  - constructor; cbn; try done; try constructor.
    + intros t s Hin. by apply elem_of_nil in Hin.
    + intros t s Hin. by apply elem_of_nil in Hin.
  - rewrite replay_snoc. by apply history_inv_step.
Qed.

(** ** Well-formed stores *)

Lemma dict_getitem_elem_NoDup {V} k v (d : dict V) :
  NoDup (dict_keys d) → (k, v) ∈ d → dict_getitem k d = Some v.
Proof.
  unfold dict_keys. induction d as [|[k0 v0] d IH]; cbn.
  - by intros _ ?%elem_of_nil.
  - intros [Hk0 Hnd]%NoDup_cons [[= -> ->]|Hin]%elem_of_cons.
    + by rewrite Z.eqb_refl.
    + destruct (Z.eqb_spec k0 k) as [->|_]; [|auto].
      destruct Hk0. apply list_elem_of_fmap. by exists (k, v).
Qed.

Lemma keyed_by_setitem {V} (key : V → Z) k v (d : dict V) :
  key v = k → keyed_by key d → keyed_by key (dict_setitem k v d).
Proof.
  intros Hkey. unfold keyed_by. induction 1 as [|[k0 v0] d Hk Hd IH]; cbn.
  - by repeat constructor.
  - destruct (Z.eqb_spec k0 k) as [->|_]; constructor; auto.
Qed.

Lemma NoDup_keys_setitem {V} k v (d : dict V) :
  NoDup (dict_keys d) → NoDup (dict_keys (dict_setitem k v d)).
Proof.
  intros Hnd. destruct (dict_contains k d) eqn:Hin.
  - by rewrite dict_keys_setitem_present.
  - rewrite dict_setitem_fresh by done. unfold dict_keys in *. rewrite fmap_app.
    apply NoDup_app. split; [done |]. split; [|apply NoDup_singleton].
    intros k' Hk' ->%list_elem_of_singleton. by apply dict_contains_false in Hin.
Qed.

Lemma step_wf q st : store_wf st → store_wf (step q st).
Proof.
  intros [Hsk Hsi Htk Hti].
  destruct (step_effect q st) as [->|[_ Heff]]; [done |].
  destruct Heff as [s Hfresh|k Hin|t Hfresh|r s t Hs Ht Hle];
    constructor; cbn [Store.students Store.tests]; try done.
  - by apply NoDup_keys_setitem.
  - by apply keyed_by_setitem.
  - rewrite dict_keys_delitem. by apply NoDup_filter.
  - unfold keyed_by, dict_delitem in *. rewrite Forall_forall in Hsi |- *.
    intros kv [_ Hkv]%list_elem_of_filter. by apply Hsi.
  - by apply NoDup_keys_setitem.
  - by apply keyed_by_setitem.
  - by apply NoDup_keys_setitem.
  - apply keyed_by_setitem; [|done]. cbn.
    apply dict_getitem_elem in Hs. unfold keyed_by in Hsi.
    rewrite Forall_forall in Hsi. symmetry. exact (Hsi _ Hs).
Qed.

Lemma run_wf qs : store_wf (run qs Store.empty).
Proof.
  induction qs as [|q qs IH] using rev_ind.
  - by repeat constructor.
  - rewrite run_snoc. by apply step_wf.
Qed.

Lemma dict_values_getitem {V} (key : V → Z) (d : dict V) v :
  NoDup (dict_keys d) → keyed_by key d →
  v ∈ dict_values d ↔ dict_getitem (key v) d = Some v.
Proof.
  intros Hnd Hkeyed. unfold dict_values. rewrite list_elem_of_fmap. split.
  - intros ([k v'] & -> & Hin). cbn.
    apply dict_getitem_elem_NoDup; [done |].
    unfold keyed_by in Hkeyed. rewrite Forall_forall in Hkeyed.
    pose proof (Hkeyed _ Hin) as Hk. cbn in Hk. by subst k.
  - intros Hget%dict_getitem_elem. by exists (key v, v).
Qed.

(** ** Which creations are in the log *)

Lemma succeeds_is_ok q st : succeeds q st ↔ is_ok (serve q st).1 = true.
Proof.
  unfold succeeds. destruct (serve q st).1 as [a|e]; cbn.
  - split; [done | by exists a].
  - split; [by intros [a ?] | done].
Qed.

Lemma store_before_snoc qs q t :
  (t ≤ length qs)%nat → store_before (qs ++ [q]) t = store_before qs t.
Proof. intros Ht. unfold store_before. by rewrite take_app_le. Qed.

Lemma store_before_length qs : store_before qs (length qs) = run qs Store.empty.
Proof. unfold store_before. by rewrite take_ge. Qed.

Lemma store_before_last qs q :
  store_before (qs ++ [q]) (length qs) = run qs Store.empty.
Proof. by rewrite store_before_snoc, store_before_length. Qed.

(** The survivors of a sequence extended by one request: the former
    survivors, unless the request deletes them, and the student the request
    creates. *)
Lemma survives_snoc qs q t s :
  survives (qs ++ [q]) t s ↔
    (survives qs t s
     ∧ ¬ (q = DeleteStudent (Student.id s) ∧ succeeds q (run qs Store.empty)))
    ∨ (t = length qs ∧ q = CreateStudent s ∧ succeeds q (run qs Store.empty)).
Proof.
  unfold survives. split.
  - intros (Hq & Hok & Hdel).
    apply lookup_snoc_Some in Hq as [[Hlt Hq]|[-> ->]].
    + left. split; [split; [done |]; split |].
      * by rewrite store_before_snoc in Hok by lia.
      * intros t' Hlt' Hq' Hs. apply (Hdel t' Hlt'); [by apply lookup_app_l_Some |].
        apply lookup_lt_Some in Hq'. by rewrite store_before_snoc by lia.
      * intros [-> Hs]. apply (Hdel (length qs) Hlt).
        -- by apply list_lookup_middle.
        -- by rewrite store_before_last.
    + right. by rewrite store_before_last in Hok.
  - intros [[(Hq & Hok & Hdel) Hnot]|(-> & -> & Hok)].
    + pose proof (lookup_lt_Some _ _ _ Hq) as Hlt.
      split; [by apply lookup_app_l_Some |]. split.
      * by rewrite store_before_snoc by lia.
      * intros t' Hlt' Hq' Hs.
        apply lookup_snoc_Some in Hq' as [[Hl Hq']|[-> ->]].
        -- apply (Hdel t' Hlt' Hq'). by rewrite store_before_snoc in Hs by lia.
        -- apply Hnot. split; [done |]. by rewrite store_before_last in Hs.
    + split; [by apply list_lookup_middle |]. split.
      * by rewrite store_before_last.
      * intros t' Hlt' Hq'%lookup_lt_Some. rewrite length_app in Hq'.
        cbn in Hq'. lia.
Qed.

Lemma test_created_snoc qs q t x :
  test_created (qs ++ [q]) t x ↔
    test_created qs t x
    ∨ (t = length qs ∧ q = CreateTest x ∧ succeeds q (run qs Store.empty)).
Proof.
  unfold test_created. split.
  - intros [Hq Hok]. apply lookup_snoc_Some in Hq as [[Hlt Hq]|[-> ->]].
    + left. split; [done |]. by rewrite store_before_snoc in Hok by lia.
    + right. by rewrite store_before_last in Hok.
  - intros [[Hq Hok]|(-> & -> & Hok)].
    + pose proof (lookup_lt_Some _ _ _ Hq) as Hlt.
      split; [by apply lookup_app_l_Some |]. by rewrite store_before_snoc by lia.
    + split; [by apply list_lookup_middle |]. by rewrite store_before_last.
Qed.

Lemma student_log_survives qs t s :
  (t, s) ∈ student_log (replay qs) ↔ survives qs t s.
Proof.
  revert t s. induction qs as [|q qs IH] using rev_ind; intros t s.
  - split; [by intros ?%elem_of_nil | by intros [? _]].
  - rewrite replay_snoc, survives_snoc, <- IH.
    destruct (history_inv_replay qs) as [Hstore Hclock _ _ _ _ _ _].
    unfold record_request. cbn [student_log]. rewrite Hstore, Hclock.
    rewrite (succeeds_is_ok q).
    destruct q as [s0|k| |k|x|k| |r|k|k|k|k|k];
      try (split; [intros ?; left; split; [done | by intros [? _]]
                  | by intros [[? _]|(_ & ? & _)]]).
    + destruct (is_ok _) eqn:Hok.
      * rewrite elem_of_app, list_elem_of_singleton. split.
        -- intros [?|[= -> ->]]; [left; split; [done | by intros [? _]] | by right].
        -- intros [[? _]|(-> & [= ->] & _)]; [by left | by right].
      * split; [intros ?; left; split; [done | by intros [? _]] |].
        by intros [[? _]|(_ & _ & ?)].
    + destruct (is_ok _) eqn:Hok.
      * rewrite list_elem_of_filter. cbn [snd]. split.
        -- intros [Hne ?]. left. split; [done |]. intros [[= ->] _]. done.
        -- intros [[? Hnot]|(_ & ? & _)]; [|done]. split; [|done].
           intros <-. by apply Hnot.
      * split; [intros ?; left; split; [done | by intros [_ ?]] |].
        by intros [[? _]|(_ & ? & _)].
Qed.

Lemma test_log_created qs t x :
  (t, x) ∈ test_log (replay qs) ↔ test_created qs t x.
Proof.
  revert t x. induction qs as [|q qs IH] using rev_ind; intros t x.
  - split; [by intros ?%elem_of_nil | by intros [? _]].
  - rewrite replay_snoc, test_created_snoc, <- IH.
    destruct (history_inv_replay qs) as [Hstore Hclock _ _ _ _ _ _].
    unfold record_request. cbn [test_log]. rewrite Hstore, Hclock.
    rewrite (succeeds_is_ok q).
    destruct q as [s0|k| |k|x0|k| |r|k|k|k|k|k];
      try (split; [by left | by intros [?|(_ & ? & _)]]).
    destruct (is_ok _) eqn:Hok.
    + rewrite elem_of_app, list_elem_of_singleton. split.
      * intros [?|[= -> ->]]; [by left | by right].
      * intros [?|(-> & [= ->] & _)]; [by left | by right].
    + split; [by left |]. by intros [?|(_ & _ & ?)].
Qed.

(** C10. After any sequence of requests from the freshly loaded module,
    [get_all_students] returns the records now in the store, one for each
    entry of the creation log and in the log's order. The log holds exactly
    the students that survive: those a request of the sequence created and no
    later request deleted, each stamped with the position of the request
    that created it, and the stamps increase along the list. A listed record
    is the created one with test ids possibly appended since.
    [get_all_tests] returns exactly the records of the test log, which holds
    the tests the requests created, again with increasing stamps. A record
    is listed exactly when reading its id returns it. *)
Theorem listings_in_creation_order (qs : list request) :
  let h := replay qs in
  let st := run qs Store.empty in
  store h = st ∧
  (∃ l, get_all_students st = (Ok l, st) ∧
        Forall2 created_as l (student_log h).*2 ∧
        ∀ s, s ∈ l ↔ get_student (Student.id s) st = (Ok s, st)) ∧
  (∃ l, get_all_tests st = (Ok l, st) ∧
        l = (test_log h).*2 ∧
        ∀ x, x ∈ l ↔ get_test (Test.id x) st = (Ok x, st)) ∧
  StronglySorted stamped_before (student_log h) ∧
  StronglySorted stamped_before (test_log h) ∧
  (∀ t s, (t, s) ∈ student_log h ↔ survives qs t s) ∧
  (∀ t x, (t, x) ∈ test_log h ↔ test_created qs t x).
Proof.
  intros h st.
  destruct (history_inv_replay qs)
    as [Hstore _ Hstudents Htests Hso Hto Hsorig Htorig].
  destruct (run_wf qs) as [Hsk Hsi Htk Hti].
  fold h in Hstore, Hstudents, Htests, Hso, Hto, Hsorig, Htorig.
  fold st in Hstore, Hsk, Hsi, Htk, Hti. rewrite Hstore in Hstudents, Htests.
  repeat match goal with |- _ ∧ _ => split end; try done.
  - exists (dict_values (Store.students st)). split; [done |]. split.
    + unfold dict_values. apply Forall2_fmap.
      eapply Forall2_impl; [exact Hstudents |]. by intros kv e [_ ?].
    + intros s. rewrite get_student_eq.
      rewrite (dict_values_getitem Student.id) by done.
      destruct (dict_getitem _ _); split; congruence.
  - exists (dict_values (Store.tests st)). split; [done |]. split.
    + unfold dict_values. rewrite Htests, <- !list_fmap_compose.
      by apply list_fmap_ext.
    + intros x. rewrite get_test_eq.
      rewrite (dict_values_getitem Test.id) by done.
      destruct (dict_getitem _ _); split; congruence.
  - apply student_log_survives.
  - apply test_log_created.
Qed.

Lemma listings_in_creation_order_witness :
  (5%nat, ann) ∈ student_log (replay term_requests) ∧
  term_requests !! 6%nat = Some (CreateTest (Test.mk 2 "Exam" 100)) ∧
  ∃ l, get_all_students (run term_requests Store.empty)
         = (Ok l, run term_requests Store.empty) ∧
       (Student.mk 2 "Bo Chen" "b@x.com" [2] ∈ l
        ↔ get_student 2 (run term_requests Store.empty)
            = (Ok (Student.mk 2 "Bo Chen" "b@x.com" [2]),
               run term_requests Store.empty)).
Proof.
  destruct (listings_in_creation_order term_requests)
    as (_ & (l & Hl & _ & Hin) & _ & _ & _ & Hs & Ht).
  split.
  { apply Hs. split; [reflexivity |]. split; [by eexists |].
    intros t' Hlt Hq. apply lookup_lt_Some in Hq as Hlen. cbn in Hlen.
    do 8 (destruct t' as [|t']; [by (lia || discriminate Hq) |]). lia. }
  split.
  { apply Ht.
    change (test_log (replay term_requests))
      with [(2%nat, quiz); (6%nat, Test.mk 2 "Exam" 100)].
    apply list_elem_of_further, list_elem_of_here. }
  exists l. split; [exact Hl | exact (Hin (Student.mk 2 "Bo Chen" "b@x.com" [2]))].
Defined.

(** The listings after [term_requests]: Bo comes before Ann, who enrolled
    again after him, and Ann's earlier result is still recorded. *)
Example term_listings :
  (get_all_students (run term_requests Store.empty)).1
    = Ok [Student.mk 2 "Bo Chen" "b@x.com" [2]; ann] ∧
  (get_all_tests (run term_requests Store.empty)).1
    = Ok [quiz; Test.mk 2 "Exam" 100] ∧
  Store.test_results (run term_requests Store.empty)
    = [TestResult.mk 1 1 18; TestResult.mk 2 2 60].
Proof. by vm_compute. Qed.

(** * Further properties of the handlers *)

(** ** Errors *)

Lemma guarded_scores_outcome {A} st test_id (k : list Z → handler A) e :
  (guarded_scores st test_id k).1 = Raise e →
  e = TestNotFound ∨ e = NoResults
  ∨ ∃ data, data ≠ [] ∧ (k data st).1 = Raise e.
Proof.
  unfold guarded_scores.
  destruct (dict_contains _ _); [|intros [= <-]; by left].
  case_bool_decide as Hne; [intros [= <-]; auto |].
  intros He. right. right. eauto.
Qed.

(** Whatever the request and the store, a handler that raises raises one of
    the HTTP errors of its own route: creations answer 400 on a duplicate
    id, lookups 404, a submission one of its three errors, an aggregate 404
    for the test or for its results, and the two listings never fail. The
    one exception is the average, which can also end in a server error when
    the mean does not fit a float. No [KeyError], [ValueError] or
    [StatisticsError] escapes a handler. *)
Theorem serve_raises_only_route_errors (q : request) (st : Store.t) (e : exn) :
  (serve q st).1 = Raise e →
  e ∈ possible_errors q
  ∨ ((∃ test_id, q = GetTestAverage test_id) ∧ server_error e).
Proof.
  destruct q; cbn [serve possible_errors]; unfold fmap_handler, bind.
  - rewrite create_student_eq. destruct (dict_contains _ _); [|done].
    intros [= <-]. left. apply list_elem_of_here.
  - rewrite get_student_eq. destruct (dict_getitem _ _); [done |].
    intros [= <-]. left. apply list_elem_of_here.
  - done.
  - rewrite delete_student_eq. destruct (dict_contains _ _); [done |].
    intros [= <-]. left. apply list_elem_of_here.
  - rewrite create_test_eq. destruct (dict_contains _ _); [|done].
    intros [= <-]. left. apply list_elem_of_here.
  - rewrite get_test_eq. destruct (dict_getitem _ _); [done |].
    intros [= <-]. left. apply list_elem_of_here.
  - done.
  - rewrite submit_test_result_eq. rewrite !elem_of_cons.
    destruct (dict_getitem _ (Store.students st)); [|intros [= <-]; auto].
    destruct (dict_getitem _ (Store.tests st)); [|intros [= <-]; auto].
    destruct (_ >? _); [intros [= <-]; auto | done].
  - rewrite get_student_results_eq. destruct (dict_contains _ _); [done |].
    intros [= <-]. left. apply list_elem_of_here.
  - rewrite get_test_results_eq. destruct (dict_contains _ _); [done |].
    intros [= <-]. left. apply list_elem_of_here.
  - rewrite get_test_average_eq. rewrite !elem_of_cons.
    destruct (guarded_scores st test_id statistics_mean).1 as [v|e'] eqn:Hg; cbn.
    + destruct (response_model_float v) as [x|e'] eqn:Hv; [done |].
      intros [= ->]. apply response_model_float_raises in Hv as ->.
      right. split; [by eexists | by right].
    + intros [= ->].
      apply guarded_scores_outcome in Hg as [->|[->|(data & Hne & Hraise)]]; auto.
      apply statistics_mean_raises in Hraise as ->; [|done].
      right. split; [by eexists | by left].
  - rewrite get_test_highest_eq. rewrite !elem_of_cons.
    destruct (guarded_scores st test_id py_max) as [[v|e'] st'] eqn:Hg; [done |]. cbn.
    intros [= ->]. apply (f_equal fst) in Hg. cbn [fst] in Hg.
    apply guarded_scores_outcome in Hg as [->|[->|(data & Hne & Hraise)]]; auto.
    destruct (py_max_spec data st Hne) as (v & Hv & _). by rewrite Hv in Hraise.
  - rewrite get_test_lowest_eq. rewrite !elem_of_cons.
    destruct (guarded_scores st test_id py_min) as [[v|e'] st'] eqn:Hg; [done |]. cbn.
    intros [= ->]. apply (f_equal fst) in Hg. cbn [fst] in Hg.
    apply guarded_scores_outcome in Hg as [->|[->|(data & Hne & Hraise)]]; auto.
    destruct (py_min_spec data st Hne) as (v & Hv & _). by rewrite Hv in Hraise.
Qed.

Lemma serve_raises_only_route_errors_witness :
  (NoResults ∈ possible_errors (GetTestAverage 2)
   ∨ ((∃ test_id, GetTestAverage 2 = GetTestAverage test_id)
      ∧ server_error NoResults)) ∧
  (OverflowError ∈ possible_errors (GetTestAverage 1)
   ∨ ((∃ test_id, GetTestAverage 1 = GetTestAverage test_id)
      ∧ server_error OverflowError)).
Proof.
  split.
  - exact (serve_raises_only_route_errors (GetTestAverage 2) graded_store
             NoResults eq_refl).
  - apply (serve_raises_only_route_errors (GetTestAverage 1)
             (run huge_requests Store.empty) OverflowError).
    by vm_compute.
Defined.

(** A request that is answered with an error has changed nothing, and a
    [GET] request changes nothing even when it succeeds. *)
Theorem serve_failure_or_query_no_effect (q : request) (st : Store.t) :
  (∀ e, (serve q st).1 = Raise e → step q st = st) ∧
  (is_query q = true → step q st = st).
Proof.
  destruct (step_effect q st) as [Heq|[[a Hok] Heff]]; [done |]. split.
  - intros e He. congruence.
  - by destruct Heff.
Qed.

Lemma serve_failure_or_query_no_effect_witness :
  step (CreateStudent (Student.mk 1 "Another Ann" "z@x.com" [3])) class_store
    = class_store ∧
  step (GetTestHighest 1) graded_store = graded_store.
Proof.
  split.
  - destruct (serve_failure_or_query_no_effect
                (CreateStudent (Student.mk 1 "Another Ann" "z@x.com" [3]))
                class_store) as [H _].
    exact (H StudentDuplicateId eq_refl).
  - destruct (serve_failure_or_query_no_effect (GetTestHighest 1) graded_store)
      as [_ H].
    exact (H eq_refl).
Defined.

(** ** Creation *)

(** Creating a student, or a test, under an id the store already holds is
    answered with 400, whatever the other fields of the new record; the
    store is unchanged, so reading the id still returns the record that was
    there. *)
Theorem create_duplicate_rejected (st : Store.t) :
  (∀ student original,
     dict_getitem (Student.id student) (Store.students st) = Some original →
     create_student student st = (Raise StudentDuplicateId, st) ∧
     get_student (Student.id student) (step (CreateStudent student) st)
       = (Ok original, st)) ∧
  (∀ test original,
     dict_getitem (Test.id test) (Store.tests st) = Some original →
     create_test test st = (Raise TestDuplicateId, st) ∧
     get_test (Test.id test) (step (CreateTest test) st) = (Ok original, st)).
Proof.
  split.
  - intros student original Hget.
    assert (Hin : dict_contains (Student.id student) (Store.students st) = true)
      by (apply dict_contains_getitem; eauto).
    assert (Hcreate : create_student student st = (Raise StudentDuplicateId, st))
      by (by rewrite create_student_eq, Hin).
    split; [done |]. unfold step. cbn [serve]. unfold fmap_handler, bind.
    rewrite Hcreate. cbn [snd]. by rewrite get_student_eq, Hget.
  - intros test original Hget.
    assert (Hin : dict_contains (Test.id test) (Store.tests st) = true)
      by (apply dict_contains_getitem; eauto).
    assert (Hcreate : create_test test st = (Raise TestDuplicateId, st))
      by (by rewrite create_test_eq, Hin).
    split; [done |]. unfold step. cbn [serve]. unfold fmap_handler, bind.
    rewrite Hcreate. cbn [snd]. by rewrite get_test_eq, Hget.
Qed.

Lemma create_duplicate_rejected_witness :
  create_student (Student.mk 1 "Another Ann" "z@x.com" [3]) class_store
    = (Raise StudentDuplicateId, class_store) ∧
  get_test 1 (step (CreateTest (Test.mk 1 "Harder quiz" 5)) class_store)
    = (Ok quiz, class_store).
Proof.
  destruct (create_duplicate_rejected class_store) as [Hs Ht]. split.
  - exact (proj1 (Hs (Student.mk 1 "Another Ann" "z@x.com" [3]) ann eq_refl)).
  - exact (proj2 (Ht (Test.mk 1 "Harder quiz" 5) quiz eq_refl)).
Defined.

Lemma dict_values_snoc {V} (d : dict V) k v :
  dict_values (d ++ [(k, v)]) = dict_values d ++ [v].
Proof. unfold dict_values. by rewrite fmap_app. Qed.

(** A successful creation puts the new record last in the listing of its
    kind and touches nothing else: every other id reads as before, and the
    two other collections are the same. *)
Theorem create_appends_to_listing (st : Store.t) :
  (∀ student,
     dict_contains (Student.id student) (Store.students st) = false →
     let st' := step (CreateStudent student) st in
     get_all_students st' = (Ok (dict_values (Store.students st) ++ [student]), st') ∧
     (∀ k, k ≠ Student.id student → (get_student k st').1 = (get_student k st).1) ∧
     Store.tests st' = Store.tests st ∧
     Store.test_results st' = Store.test_results st) ∧
  (∀ test,
     dict_contains (Test.id test) (Store.tests st) = false →
     let st' := step (CreateTest test) st in
     get_all_tests st' = (Ok (dict_values (Store.tests st) ++ [test]), st') ∧
     (∀ k, k ≠ Test.id test → (get_test k st').1 = (get_test k st).1) ∧
     Store.students st' = Store.students st ∧
     Store.test_results st' = Store.test_results st).
Proof.
  split.
  - intros student Hfresh st'.
    assert (Hst' : st' = Store.mk (Store.students st ++ [(Student.id student, student)])
                           (Store.tests st) (Store.test_results st)).
    { unfold st', step. cbn [serve]. unfold fmap_handler, bind.
      rewrite create_student_eq, Hfresh. cbn. by rewrite dict_setitem_fresh. }
    rewrite Hst'. split; [|split; [|done]].
    + unfold get_all_students. unfold_monad. cbn [Store.students].
      by rewrite dict_values_snoc.
    + intros k Hk. rewrite !get_student_eq. cbn [Store.students].
      rewrite <- (dict_setitem_fresh _ student) by done.
      rewrite dict_getitem_setitem_ne by done. by destruct (dict_getitem _ _).
  - intros test Hfresh st'.
    assert (Hst' : st' = Store.mk (Store.students st)
                           (Store.tests st ++ [(Test.id test, test)])
                           (Store.test_results st)).
    { unfold st', step. cbn [serve]. unfold fmap_handler, bind.
      rewrite create_test_eq, Hfresh. cbn. by rewrite dict_setitem_fresh. }
    rewrite Hst'. split; [|split; [|done]].
    + unfold get_all_tests. unfold_monad. cbn [Store.tests].
      by rewrite dict_values_snoc.
    + intros k Hk. rewrite !get_test_eq. cbn [Store.tests].
      rewrite <- (dict_setitem_fresh _ test) by done.
      rewrite dict_getitem_setitem_ne by done. by destruct (dict_getitem _ _).
Qed.

Lemma create_appends_to_listing_witness :
  (get_all_students (step (CreateStudent bo) class_store)).1 = Ok [ann; bo] ∧
  (get_all_tests (step (CreateTest (Test.mk 2 "Exam" 100)) class_store)).1
    = Ok [quiz; Test.mk 2 "Exam" 100].
Proof.
  destruct (create_appends_to_listing class_store) as [Hs Ht]. split.
  - destruct (Hs bo eq_refl) as [H _]. by rewrite H.
  - destruct (Ht (Test.mk 2 "Exam" 100) eq_refl) as [H _]. by rewrite H.
Defined.

(** ** Invariants of the running service *)

Lemma keyed_by_values {V} (key : V → Z) (d : dict V) :
  keyed_by key d → key <$> dict_values d = dict_keys d.
Proof.
  unfold keyed_by, dict_values, dict_keys.
  induction 1 as [|[k v] d Hk _ IH]; [done |]. cbn in *. by f_equal.
Qed.

(** After any sequence of requests from the freshly loaded module no two
    listed students share an id, and no two listed tests do. *)
Theorem identifiers_unique (qs : list request) :
  let st := run qs Store.empty in
  ∃ ls lt,
    get_all_students st = (Ok ls, st) ∧ NoDup (Student.id <$> ls) ∧
    get_all_tests st = (Ok lt, st) ∧ NoDup (Test.id <$> lt).
Proof.
  intros st. destruct (run_wf qs) as [Hsk Hsi Htk Hti]. fold st in Hsk, Hsi, Htk, Hti.
  exists (dict_values (Store.students st)), (dict_values (Store.tests st)).
  split; [done |]. split; [by rewrite (keyed_by_values Student.id) |].
  split; [done |]. by rewrite (keyed_by_values Test.id).
Qed.

Lemma run_test_stable qs st k test :
  dict_getitem k (Store.tests st) = Some test →
  dict_getitem k (Store.tests (run qs st)) = Some test.
Proof.
  intros Hk. induction qs as [|q qs IH] using rev_ind; [done |].
  rewrite run_snoc. by apply step_test_stable.
Qed.

(** No request changes or removes a test: once an id reads as a test, it
    reads as the same test after any further requests. *)
Theorem tests_never_change (qs : list request) (st : Store.t) (k : Z) (test : Test.t) :
  get_test k st = (Ok test, st) →
  get_test k (run qs st) = (Ok test, run qs st).
Proof.
  rewrite !get_test_eq. intros Hget.
  destruct (dict_getitem k (Store.tests st)) as [t|] eqn:Hk; [|done].
  injection Hget as ->. by rewrite (run_test_stable qs st k test Hk).
Qed.

Lemma tests_never_change_witness :
  get_test 1 (run term_requests class_store)
    = (Ok quiz, run term_requests class_store).
Proof. exact (tests_never_change term_requests class_store 1 quiz eq_refl). Defined.

(** The collection of results only grows at its end: what was recorded stays
    recorded, at its position, through any further requests. *)
Theorem test_results_append_only (qs : list request) (st : Store.t) :
  Store.test_results st `prefix_of` Store.test_results (run qs st).
Proof.
  induction qs as [|q qs IH] using rev_ind; [done |].
  rewrite run_snoc.
  destruct (step_test_results q (run qs st)) as [->|(r & _ & _ & ->)]; [done |].
  by apply prefix_app_r.
Qed.

(** ** Deletion beside the recorded results *)

Lemma step_delete_student k st :
  dict_contains k (Store.students st) = true →
  step (DeleteStudent k) st
    = Store.mk (dict_delitem k (Store.students st)) (Store.tests st)
               (Store.test_results st).
Proof.
  intros Hin. unfold step. cbn [serve]. unfold fmap_handler, bind.
  by rewrite delete_student_eq, Hin.
Qed.

(** The aggregates read the store through [tests] and [test_results]
    only. *)
Lemma guarded_scores_frame {A} st st' test_id (k : list Z → handler A) :
  Store.tests st' = Store.tests st →
  Store.test_results st' = Store.test_results st →
  (∀ data, (k data st').1 = (k data st).1) →
  (guarded_scores st' test_id k).1 = (guarded_scores st test_id k).1.
Proof.
  intros Ht Hr Hk. unfold guarded_scores. rewrite Ht, Hr.
  destruct (dict_contains _ _); [|done]. by case_bool_decide.
Qed.

Lemma statistics_mean_outcome data st st' :
  (statistics_mean data st').1 = (statistics_mean data st).1.
Proof.
  unfold statistics_mean. destruct data; [done |].
  destruct (Pos.eqb _ _); [done |]. by destruct (nearest_binary64 _ _).
Qed.

Lemma py_max_outcome data st st' : (py_max data st').1 = (py_max data st).1.
Proof. by destruct data. Qed.

Lemma py_min_outcome data st st' : (py_min data st').1 = (py_min data st).1.
Proof. by destruct data. Qed.

(** Deleting a student leaves the student's results recorded: the listing by
    that student is then refused with 404 although its items are all still
    in [test_results], and the listing by test and the three aggregates of
    every test answer as before the deletion. *)
Theorem deleted_student_results_remain (st : Store.t) (k : Z) :
  dict_contains k (Store.students st) = true →
  let st' := step (DeleteStudent k) st in
  get_student_results k st' = (Raise StudentNotFound, st') ∧
  filter (λ r, TestResult.student_id r = k) (Store.test_results st')
    = filter (λ r, TestResult.student_id r = k) (Store.test_results st) ∧
  ∀ test_id,
    (get_test_results test_id st').1 = (get_test_results test_id st).1 ∧
    (get_test_average test_id st').1 = (get_test_average test_id st).1 ∧
    (get_test_highest test_id st').1 = (get_test_highest test_id st).1 ∧
    (get_test_lowest test_id st').1 = (get_test_lowest test_id st).1.
Proof.
  intros Hin st'. unfold st'. rewrite (step_delete_student k st Hin).
  split; [|split; [done |]].
  - rewrite get_student_results_eq. cbn [Store.students].
    by rewrite dict_contains_delitem.
  - intros test_id. rewrite !get_test_results_eq.
    rewrite !get_test_average_outcome, !get_test_highest_eq, !get_test_lowest_eq.
    cbn [Store.tests Store.test_results].
    split; [by destruct (dict_contains test_id (Store.tests st)) |].
    split; [f_equal |split]; (apply guarded_scores_frame; [done | done |]);
      auto using statistics_mean_outcome, py_max_outcome, py_min_outcome.
Qed.

Lemma deleted_student_results_remain_witness :
  get_student_results 1 (step (DeleteStudent 1) two_students)
    = (Raise StudentNotFound, step (DeleteStudent 1) two_students) ∧
  (get_test_results 1 (step (DeleteStudent 1) two_students)).1
    = Ok [TestResult.mk 1 1 18; TestResult.mk 2 1 7; TestResult.mk 1 1 20].
Proof.
  destruct (deleted_student_results_remain two_students 1 eq_refl)
    as (Hrefused & _ & Hrest).
  split; [exact Hrefused |].
  destruct (Hrest 1) as [Hlist _]. by rewrite Hlist.
Defined.

(** Deleting a student and creating one under the same id moves the id to
    the end of the listing, with the new record's own [tests_taken]; the
    results recorded for the id before are still there and are listed for
    the new student. *)
Theorem recreate_after_delete (st : Store.t) (student : Student.t) :
  dict_contains (Student.id student) (Store.students st) = true →
  let st' := step (CreateStudent student) (step (DeleteStudent (Student.id student)) st) in
  get_all_students st'
    = (Ok (dict_values (dict_delitem (Student.id student) (Store.students st))
           ++ [student]), st') ∧
  get_student (Student.id student) st' = (Ok student, st') ∧
  get_student_results (Student.id student) st'
    = (Ok (filter (λ r, TestResult.student_id r = Student.id student)
             (Store.test_results st)), st').
Proof.
  intros Hin st'.
  pose proof (dict_contains_delitem (Student.id student) (Store.students st)) as Hgone.
  assert (Hst' : st' = Store.mk
            (dict_delitem (Student.id student) (Store.students st)
             ++ [(Student.id student, student)])
            (Store.tests st) (Store.test_results st)).
  { unfold st'. rewrite (step_delete_student _ st Hin).
    unfold step. cbn [serve]. unfold fmap_handler, bind.
    rewrite create_student_eq. cbn [Store.students Store.tests Store.test_results].
    rewrite Hgone. cbn. by rewrite dict_setitem_fresh. }
  rewrite Hst'. split; [|split].
  - unfold get_all_students. unfold_monad. cbn [Store.students].
    by rewrite dict_values_snoc.
  - rewrite get_student_eq. cbn [Store.students].
    rewrite <- (dict_setitem_fresh _ student) by done.
    by rewrite dict_getitem_setitem.
  - rewrite get_student_results_eq. cbn [Store.students Store.test_results].
    rewrite <- (dict_setitem_fresh _ student) by done.
    by rewrite dict_contains_setitem, Z.eqb_refl.
Qed.

Lemma recreate_after_delete_witness :
  (get_all_students
     (step (CreateStudent ann) (step (DeleteStudent 1) two_students))).1
    = Ok [Student.mk 2 "Bo Chen" "b@x.com" [1]; ann] ∧
  (get_student_results 1
     (step (CreateStudent ann) (step (DeleteStudent 1) two_students))).1
    = Ok [TestResult.mk 1 1 18; TestResult.mk 1 1 20].
Proof.
  destruct (recreate_after_delete two_students ann eq_refl) as (Hall & _ & Hres).
  split.
  - exact (f_equal fst Hall).
  - exact (f_equal fst Hres).
Defined.

(** ** The aggregates against [max_score] *)

Lemma guarded_scores_Ok {A} st test_id (k : list Z → handler A) a :
  (guarded_scores st test_id k).1 = Ok a →
  dict_contains test_id (Store.tests st) = true ∧
  scores_of_test test_id (Store.test_results st) ≠ [] ∧
  (k (scores_of_test test_id (Store.test_results st)) st).1 = Ok a.
Proof.
  unfold guarded_scores. destruct (dict_contains _ _); [|done].
  by case_bool_decide.
Qed.

(** After any sequence of requests from the freshly loaded module, every
    result listed for a test, and so the highest score of the test, is at
    most the [max_score] that reading the test returns. *)
Theorem highest_within_max_score (qs : list request) (test_id : Z) :
  let st := run qs Store.empty in
  (∀ l r, (get_test_results test_id st).1 = Ok l → r ∈ l →
     ∃ test, get_test test_id st = (Ok test, st)
             ∧ TestResult.score r ≤ Test.max_score test) ∧
  (∀ hi, (get_test_highest test_id st).1 = Ok hi →
     ∃ test, get_test test_id st = (Ok test, st) ∧ hi ≤ Test.max_score test).
Proof.
  intros st.
  assert (Hinv : Forall (score_within_max st) (Store.test_results st)).
  { apply reachable_results_within_max, reachable_run. by exists qs. }
  rewrite Forall_forall in Hinv.
  assert (Hbound : ∀ r, r ∈ Store.test_results st → TestResult.test_id r = test_id →
    ∃ test, get_test test_id st = (Ok test, st)
            ∧ TestResult.score r ≤ Test.max_score test).
  { intros r Hr <-. destruct (Hinv r Hr) as (test & Hget & Hle).
    exists test. by rewrite get_test_eq, Hget. }
  split.
  - intros l r. rewrite get_test_results_eq.
    destruct (dict_contains _ _); [|done]. cbn. intros [= <-].
    intros [Hid Hr]%list_elem_of_filter. by apply Hbound.
  - intros hi. rewrite get_test_highest_eq.
    intros (_ & Hne & Hhi)%guarded_scores_Ok.
    destruct (py_max_spec _ st Hne) as (hi' & Hhi' & Hin & _).
    rewrite Hhi' in Hhi. cbn in Hhi. injection Hhi as ->.
    unfold scores_of_test in Hin.
    apply list_elem_of_fmap in Hin as (r & -> & [Hid Hr]%list_elem_of_filter).
    by apply Hbound.
Qed.

Lemma highest_within_max_score_witness :
  ∃ test, get_test 2 (run term_requests Store.empty)
            = (Ok test, run term_requests Store.empty)
          ∧ 60 ≤ Test.max_score test.
Proof.
  destruct (highest_within_max_score term_requests 2) as [_ H].
  exact (H 60 eq_refl).
Defined.

(** ** Submissions and the taken tests *)

Lemma step_submit_valid result student test st :
  dict_getitem (TestResult.student_id result) (Store.students st) = Some student →
  dict_getitem (TestResult.test_id result) (Store.tests st) = Some test →
  TestResult.score result ≤ Test.max_score test →
  serve (SubmitTestResult result) st
    = (Ok (RResult result),
       Store.mk
         (dict_setitem (TestResult.student_id result)
            (Student.append_test (TestResult.test_id result) student)
            (Store.students st))
         (Store.tests st)
         (Store.test_results st ++ [result])).
Proof.
  intros Hs Ht Hle. cbn [serve]. unfold fmap_handler, bind.
  rewrite submit_test_result_eq, Hs, Ht.
  by destruct (Z.gtb_spec (TestResult.score result) (Test.max_score test)); [lia |].
Qed.

(** Nothing keeps a student from submitting the same result again: a valid
    submission sent twice succeeds twice, is recorded twice, and puts the
    test id twice into the student's [tests_taken]. *)
Theorem submit_twice_recorded_twice
    (st : Store.t) (result : TestResult.t) (student : Student.t) (test : Test.t) :
  let sid := TestResult.student_id result in
  let tid := TestResult.test_id result in
  let st1 := step (SubmitTestResult result) st in
  let st2 := step (SubmitTestResult result) st1 in
  dict_getitem sid (Store.students st) = Some student →
  dict_getitem tid (Store.tests st) = Some test →
  TestResult.score result ≤ Test.max_score test →
  (serve (SubmitTestResult result) st).1 = Ok (RResult result) ∧
  (serve (SubmitTestResult result) st1).1 = Ok (RResult result) ∧
  Store.test_results st2 = Store.test_results st ++ [result; result] ∧
  ∃ student2,
    get_student sid st2 = (Ok student2, st2) ∧
    Student.tests_taken student2 = Student.tests_taken student ++ [tid; tid].
Proof.
  intros sid tid st1 st2 Hs Ht Hle.
  pose proof (step_submit_valid result student test st Hs Ht Hle) as H1.
  assert (Hs1 : dict_getitem sid (Store.students st1)
                = Some (Student.append_test tid student)).
  { unfold st1, step. rewrite H1. cbn. apply dict_getitem_setitem. }
  assert (Ht1 : dict_getitem tid (Store.tests st1) = Some test).
  { unfold st1, step. by rewrite H1. }
  pose proof (step_submit_valid result _ test st1 Hs1 Ht1 Hle) as H2.
  split; [by rewrite H1 |]. split; [by rewrite H2 |].
  assert (Hst2 : st2 = (serve (SubmitTestResult result) st1).2) by done.
  rewrite H2 in Hst2. cbn [snd] in Hst2. fold sid tid in Hst2.
  split.
  - rewrite Hst2. cbn [Store.test_results]. unfold st1, step. rewrite H1. cbn.
    by rewrite <- app_assoc.
  - exists (Student.append_test tid (Student.append_test tid student)). split.
    + rewrite get_student_eq. rewrite Hst2 at 1. cbn [Store.students].
      by rewrite dict_getitem_setitem.
    + cbn. by rewrite <- app_assoc.
Qed.

Lemma submit_twice_recorded_twice_witness :
  Store.test_results
    (step (SubmitTestResult (TestResult.mk 1 1 18))
       (step (SubmitTestResult (TestResult.mk 1 1 18)) class_store))
  = [TestResult.mk 1 1 18; TestResult.mk 1 1 18].
Proof.
  destruct (submit_twice_recorded_twice class_store (TestResult.mk 1 1 18) ann quiz)
    as (_ & _ & H & _).
  - reflexivity.
  - reflexivity.
  - cbn. lia.
  - exact H.
Defined.

(** The test ids of the results recorded for student [k]. *)
Lemma step_student_results q st k s :
  dict_getitem k (Store.students st) = Some s →
  q ≠ DeleteStudent k →
  ∃ s' ext,
    dict_getitem k (Store.students (step q st)) = Some s' ∧
    Student.tests_taken s' = Student.tests_taken s ++ ext ∧
    TestResult.test_id <$>
      filter (λ r, TestResult.student_id r = k) (Store.test_results (step q st))
    = (TestResult.test_id <$>
         filter (λ r, TestResult.student_id r = k) (Store.test_results st)) ++ ext.
Proof.
  intros Hs Hq.
  assert (Hsame : ∀ st', dict_getitem k (Store.students st') = Some s →
    Store.test_results st' = Store.test_results st →
    ∃ s' ext,
      dict_getitem k (Store.students st') = Some s' ∧
      Student.tests_taken s' = Student.tests_taken s ++ ext ∧
      TestResult.test_id <$>
        filter (λ r, TestResult.student_id r = k) (Store.test_results st')
      = (TestResult.test_id <$>
           filter (λ r, TestResult.student_id r = k) (Store.test_results st)) ++ ext).
  { intros st' Hs' Hr. exists s, []. rewrite Hr, !app_nil_r. done. }
  destruct (step_effect q st) as [->|[_ Heff]]; [by apply Hsame |].
  destruct Heff as [s0 Hfresh|sid Hin|t Hfresh|r s1 t Hs1 Ht Hle].
  - apply Hsame; [|done]. cbn [Store.students].
    rewrite dict_getitem_setitem_ne; [done |].
    intros <-. apply dict_getitem_None in Hfresh. congruence.
  - apply Hsame; [|done]. cbn [Store.students].
    rewrite dict_getitem_delitem_ne; [done |]. congruence.
  - by apply Hsame.
  - cbn [Store.students Store.test_results]. rewrite filter_app, fmap_app.
    destruct (decide (TestResult.student_id r = k)) as [Hk|Hk].
    + exists (Student.append_test (TestResult.test_id r) s), [TestResult.test_id r].
      rewrite Hk in *. rewrite dict_getitem_setitem.
      rewrite filter_cons_True, filter_nil by done.
      split; [congruence |]. done.
    + exists s, []. rewrite dict_getitem_setitem_ne by done.
      rewrite filter_cons_False, filter_nil by done.
      by rewrite !app_nil_r.
Qed.

(** Whatever [tests_taken] and results a stored student starts with, as long
    as no request deletes the student the two grow together: the test ids
    appended to [tests_taken] are, in the same order, the test ids of the
    results recorded for the student since. *)
Theorem tests_taken_tracks_results
    (qs : list request) (st : Store.t) (k : Z) (s : Student.t) :
  dict_getitem k (Store.students st) = Some s →
  Forall (λ q, q ≠ DeleteStudent k) qs →
  ∃ s' results ext,
    get_student k (run qs st) = (Ok s', run qs st) ∧
    get_student_results k (run qs st) = (Ok results, run qs st) ∧
    Student.tests_taken s' = Student.tests_taken s ++ ext ∧
    TestResult.test_id <$> results
    = (TestResult.test_id <$>
         filter (λ r, TestResult.student_id r = k) (Store.test_results st)) ++ ext.
Proof.
  intros Hs Hqs.
  assert (Hrun : ∃ s' ext,
    dict_getitem k (Store.students (run qs st)) = Some s' ∧
    Student.tests_taken s' = Student.tests_taken s ++ ext ∧
    TestResult.test_id <$>
      filter (λ r, TestResult.student_id r = k) (Store.test_results (run qs st))
    = (TestResult.test_id <$>
         filter (λ r, TestResult.student_id r = k) (Store.test_results st)) ++ ext).
  { induction qs as [|q qs IH] using rev_ind.
    - exists s, []. by rewrite !app_nil_r.
    - apply Forall_app in Hqs as [Hqs Hq]. apply Forall_inv in Hq.
      destruct (IH Hqs) as (s1 & ext1 & Hs1 & Htaken1 & Hres1).
      rewrite run_snoc.
      destruct (step_student_results q (run qs st) k s1 Hs1 Hq)
        as (s2 & ext2 & Hs2 & Htaken2 & Hres2).
      exists s2, (ext1 ++ ext2). split; [done |].
      rewrite Htaken2, Htaken1, Hres2, Hres1. by rewrite !app_assoc. }
  destruct Hrun as (s' & ext & Hs' & Htaken & Hres).
  exists s', (filter (λ r, TestResult.student_id r = k)
                (Store.test_results (run qs st))), ext.
  split; [by rewrite get_student_eq, Hs' |]. split; [|done].
  rewrite get_student_results_eq.
  by rewrite (proj2 (dict_contains_getitem _ _) (mk_is_Some _ _ Hs')).
Qed.

Lemma tests_taken_tracks_results_witness :
  ∃ s' results ext,
    get_student 2 (run term_requests transfer_store)
      = (Ok s', run term_requests transfer_store) ∧
    get_student_results 2 (run term_requests transfer_store)
      = (Ok results, run term_requests transfer_store) ∧
    Student.tests_taken s' = [5; 5] ++ ext ∧
    TestResult.test_id <$> results = ext.
Proof.
  apply (tests_taken_tracks_results term_requests transfer_store
           2 (Student.mk 2 "Bo Chen" "b@x.com" [5; 5])).
  - reflexivity.
  - repeat constructor; discriminate.
Defined.

(** ** References of the recorded results *)

Lemma step_test_results_student q st :
  Store.test_results (step q st) = Store.test_results st
  ∨ ∃ r student, q = SubmitTestResult r
       ∧ dict_getitem (TestResult.student_id r) (Store.students st) = Some student
       ∧ (serve q st).1 = Ok (RResult r)
       ∧ Store.test_results (step q st) = Store.test_results st ++ [r].
Proof.
  destruct (step_effect q st) as [->|[[a Hok] Heff]]; [by left |].
  destruct Heff as [ | | |r s t Hs Ht Hle]; cbn [Store.test_results]; try by left.
  right. exists r, s. split; [done |]. split; [done |]. split; [|done].
  by rewrite Hok, (serve_submit_ok _ _ _ Hok).
Qed.

(** After any sequence of requests from the freshly loaded module, the
    result at each position of [test_results] was put there by a submission
    of the sequence: one that succeeded, that found the collection with
    exactly that many items and appended the result to it, and that was made
    when the referenced student was in the store. *)
Theorem results_reference_student_at_insertion
    (qs : list request) (i : nat) (r : TestResult.t) :
  Store.test_results (run qs Store.empty) !! i = Some r →
  ∃ qs1 qs2 student,
    qs = qs1 ++ SubmitTestResult r :: qs2 ∧
    length (Store.test_results (run qs1 Store.empty)) = i ∧
    get_student (TestResult.student_id r) (run qs1 Store.empty)
      = (Ok student, run qs1 Store.empty) ∧
    (serve (SubmitTestResult r) (run qs1 Store.empty)).1 = Ok (RResult r) ∧
    Store.test_results (run (qs1 ++ [SubmitTestResult r]) Store.empty)
      = Store.test_results (run qs1 Store.empty) ++ [r].
Proof.
  induction qs as [|q qs IH] using rev_ind; [done |].
  rewrite run_snoc. intros Hi.
  assert (Hold : Store.test_results (run qs Store.empty) !! i = Some r →
    ∃ qs1 qs2 student,
      qs ++ [q] = qs1 ++ SubmitTestResult r :: qs2 ∧
      length (Store.test_results (run qs1 Store.empty)) = i ∧
      get_student (TestResult.student_id r) (run qs1 Store.empty)
        = (Ok student, run qs1 Store.empty) ∧
      (serve (SubmitTestResult r) (run qs1 Store.empty)).1 = Ok (RResult r) ∧
      Store.test_results (run (qs1 ++ [SubmitTestResult r]) Store.empty)
        = Store.test_results (run qs1 Store.empty) ++ [r]).
  { intros (qs1 & qs2 & student & -> & Hlen & Hthen)%IH.
    exists qs1, (qs2 ++ [q]), student. by rewrite <- app_assoc. }
  destruct (step_test_results_student q (run qs Store.empty))
    as [Heq|(r' & student & -> & Hs & Hok & Heq)]; rewrite Heq in Hi;
    [by apply Hold |].
  apply lookup_app_Some in Hi as [Hi|[Hge Hi]]; [by apply Hold |].
  apply list_lookup_singleton_Some in Hi as [Hi ->].
  exists qs, [], student. split; [done |]. split; [lia |].
  split; [by rewrite get_student_eq, Hs |]. split; [done |].
  by rewrite run_snoc.
Qed.

Lemma results_reference_student_at_insertion_witness :
  ∃ qs1 qs2 student,
    term_requests = qs1 ++ SubmitTestResult (TestResult.mk 1 1 18) :: qs2 ∧
    length (Store.test_results (run qs1 Store.empty)) = 0%nat ∧
    get_student 1 (run qs1 Store.empty) = (Ok student, run qs1 Store.empty) ∧
    (serve (SubmitTestResult (TestResult.mk 1 1 18)) (run qs1 Store.empty)).1
      = Ok (RResult (TestResult.mk 1 1 18)).
Proof.
  destruct (results_reference_student_at_insertion term_requests 0
              (TestResult.mk 1 1 18) eq_refl)
    as (qs1 & qs2 & student & H1 & H2 & H3 & H4 & _).
  by exists qs1, qs2, student.
Defined.

(** After any sequence of requests from the freshly loaded module, every
    recorded result can still be listed by its test: the listing for its
    test id succeeds and contains it. (The listing by student offers no such
    guarantee, as students can be deleted.) *)
Theorem recorded_results_listed_by_test (qs : list request) (r : TestResult.t) :
  let st := run qs Store.empty in
  r ∈ Store.test_results st →
  ∃ l, get_test_results (TestResult.test_id r) st = (Ok l, st) ∧ r ∈ l.
Proof.
  intros st Hr.
  assert (Hinv : Forall (score_within_max st) (Store.test_results st)).
  { apply reachable_results_within_max, reachable_run. by exists qs. }
  rewrite Forall_forall in Hinv. destruct (Hinv r Hr) as (test & Hget & _).
  eexists. rewrite get_test_results_eq.
  rewrite (proj2 (dict_contains_getitem _ _) (mk_is_Some _ _ Hget)).
  split; [reflexivity |]. by apply list_elem_of_filter.
Qed.

Lemma recorded_results_listed_by_test_witness :
  ∃ l, get_test_results 1 (run term_requests Store.empty)
         = (Ok l, run term_requests Store.empty)
       ∧ TestResult.mk 1 1 18 ∈ l.
Proof.
  apply (recorded_results_listed_by_test term_requests (TestResult.mk 1 1 18)).
  apply list_elem_of_here.
Defined.

(** A submission for a student who has been deleted is refused with 404
    "Student not found", whatever its test and score, and records nothing. *)
Theorem submit_after_delete_refused (st : Store.t) (result : TestResult.t) :
  dict_contains (TestResult.student_id result) (Store.students st) = true →
  let st' := step (DeleteStudent (TestResult.student_id result)) st in
  submit_test_result result st' = (Raise StudentNotFound, st') ∧
  Store.test_results (step (SubmitTestResult result) st') = Store.test_results st.
Proof.
  intros Hin st'.
  assert (Hst' : st' = Store.mk
            (dict_delitem (TestResult.student_id result) (Store.students st))
            (Store.tests st) (Store.test_results st))
    by apply (step_delete_student _ st Hin).
  assert (Hgone : dict_getitem (TestResult.student_id result) (Store.students st') = None).
  { rewrite Hst'. cbn [Store.students]. apply dict_getitem_None, dict_contains_delitem. }
  assert (Hsubmit : submit_test_result result st' = (Raise StudentNotFound, st'))
    by (by rewrite submit_test_result_eq, Hgone).
  split; [done |]. unfold step at 1. cbn [serve]. unfold fmap_handler, bind.
  rewrite Hsubmit. cbn [snd]. by rewrite Hst'.
Qed.

Lemma submit_after_delete_refused_witness :
  submit_test_result (TestResult.mk 1 1 18) (step (DeleteStudent 1) class_store)
    = (Raise StudentNotFound, step (DeleteStudent 1) class_store).
Proof.
  exact (proj1 (submit_after_delete_refused class_store (TestResult.mk 1 1 18) eq_refl)).
Defined.

(** ** The aggregates and the order of the results *)

Lemma py_max_Permutation data data' st st' :
  data ≡ₚ data' → (py_max data st).1 = (py_max data' st').1.
Proof.
  intros Hperm. destruct (decide (data = [])) as [->|Hne].
  { apply Permutation_nil_l in Hperm. by subst. }
  assert (Hne' : data' ≠ []).
  { intros ->. by apply Permutation_nil_r in Hperm. }
  destruct (py_max_spec data st Hne) as (m & -> & Hin & Hb).
  destruct (py_max_spec data' st' Hne') as (m' & -> & Hin' & Hb').
  rewrite Forall_forall in Hb, Hb'. rewrite Hperm in Hin. rewrite <- Hperm in Hin'.
  apply Hb' in Hin. apply Hb in Hin'. cbn. f_equal. lia.
Qed.

Lemma py_min_Permutation data data' st st' :
  data ≡ₚ data' → (py_min data st).1 = (py_min data' st').1.
Proof.
  intros Hperm. destruct (decide (data = [])) as [->|Hne].
  { apply Permutation_nil_l in Hperm. by subst. }
  assert (Hne' : data' ≠ []).
  { intros ->. by apply Permutation_nil_r in Hperm. }
  destruct (py_min_spec data st Hne) as (m & -> & Hin & Hb).
  destruct (py_min_spec data' st' Hne') as (m' & -> & Hin' & Hb').
  rewrite Forall_forall in Hb, Hb'. rewrite Hperm in Hin. rewrite <- Hperm in Hin'.
  apply Hb' in Hin. apply Hb in Hin'. cbn. f_equal. lia.
Qed.

Lemma statistics_mean_Permutation data data' st st' :
  data ≡ₚ data' → (statistics_mean data st).1 = (statistics_mean data' st').1.
Proof.
  intros Hperm. unfold statistics_mean.
  rewrite !py_sum_foldr, (foldr_add_Permutation _ _ Hperm), (Permutation_length Hperm).
  destruct data as [|x data].
  { apply Permutation_nil_l in Hperm. by subst. }
  destruct data' as [|x' data']; [by apply Permutation_nil_r in Hperm |].
  destruct (Pos.eqb _ _); [done |]. by destruct (nearest_binary64 _ _).
Qed.

(** The three aggregates of a test depend on the recorded scores only, not
    on the order in which the results were submitted: two stores that hold
    the test and the same scores for it, in any order, give the same
    answers. *)
Theorem aggregates_order_independent (st st' : Store.t) (test_id : Z) :
  dict_contains test_id (Store.tests st) = dict_contains test_id (Store.tests st') →
  scores_of_test test_id (Store.test_results st)
    ≡ₚ scores_of_test test_id (Store.test_results st') →
  (get_test_average test_id st).1 = (get_test_average test_id st').1 ∧
  (get_test_highest test_id st).1 = (get_test_highest test_id st').1 ∧
  (get_test_lowest test_id st).1 = (get_test_lowest test_id st').1.
Proof.
  intros Hin Hperm.
  rewrite !get_test_average_outcome, !get_test_highest_eq, !get_test_lowest_eq.
  unfold guarded_scores. rewrite Hin.
  destruct (dict_contains test_id (Store.tests st')); [|done].
  assert (Hnil : scores_of_test test_id (Store.test_results st) = []
                 ↔ scores_of_test test_id (Store.test_results st') = []).
  { split; intros Hnil; rewrite Hnil in Hperm;
      [by apply Permutation_nil_l in Hperm | by apply Permutation_nil_r in Hperm]. }
  do 2 case_bool_decide; try tauto; try done.
  split; [f_equal; by apply statistics_mean_Permutation |].
  split; [by apply py_max_Permutation | by apply py_min_Permutation].
Qed.

Lemma aggregates_order_independent_witness :
  (get_test_average 1 graded_store).1
    = (get_test_average 1
         (Store.mk [] [(1, quiz)]
            [TestResult.mk 3 1 5; TestResult.mk 4 1 10; TestResult.mk 3 1 15])).1.
Proof.
  apply (aggregates_order_independent graded_store
           (Store.mk [] [(1, quiz)]
              [TestResult.mk 3 1 5; TestResult.mk 4 1 10; TestResult.mk 3 1 15]) 1).
  - reflexivity.
  - change ([15; 5; 10] ≡ₚ [5; 10; 15]).
    etrans; [apply perm_swap | apply perm_skip, perm_swap].
Defined.
